(** * Teacher portal (teacher/teacher_app.py): handlers, session guard and
    attendance merge, embedded as state-passing functions over a world made
    of the Flask session, the database and the open connections. *)

From Stdlib Require Import ZArith Lia.
From stdpp Require Import base list strings gmap sorting pretty.

Set Warnings "-register-all".
Local Open Scope string_scope.
Local Open Scope Z_scope.

(** ** Values *)

(** Python values as they come out of [request.get_json()], live in the
    session and go into [jsonify]. *)
Inductive pyval :=
  | PNone
  | PBool (b : bool)
  | PInt (z : Z)
  | PStr (s : string)
  | PList (l : list pyval)
  | PDict (d : list (string * pyval)).

(** Column values as the connector hands them out with
    [cursor(dictionary=True)]: NULL, integers, text, and time-like values
    (datetime, timedelta), the latter carried by the text [str()] gives. *)
Inductive sqlval :=
  | SNull
  | SInt (z : Z)
  | SStr (s : string)
  | STime (text : string).

#[global] Instance sqlval_eq_dec : EqDecision sqlval.
Proof. solve_decision. Defined.

#[global] Instance sqlval_countable : Countable sqlval.
Proof.
  refine (inj_countable'
    (fun v => match v with
              | SNull => inl tt
              | SInt z => inr (inl z)
              | SStr s => inr (inr (inl s))
              | STime t => inr (inr (inr t))
              end)
    (fun e => match e with
              | inl _ => SNull
              | inr (inl z) => SInt z
              | inr (inr (inl s)) => SStr s
              | inr (inr (inr t)) => STime t
              end) _).
  by intros [].
Defined.

(** Python truth value ([if x], [not x], [all]). *)
Definition truthy (v : pyval) : bool :=
  match v with
  | PNone => false
  | PBool b => b
  | PInt z => negb (z =? 0)
  | PStr s => negb (String.eqb s "")
  | PList l => match l with [] => false | _ => true end
  | PDict d => match d with [] => false | _ => true end
  end.

(** Truth value of a column value; a datetime is always true. *)
Definition sql_truthy (v : sqlval) : bool :=
  match v with
  | SNull => false
  | SInt z => negb (z =? 0)
  | SStr s => negb (String.eqb s "")
  | STime _ => true
  end.

(** [str(v)] on a column value. *)
Definition sql_str (v : sqlval) : string :=
  match v with
  | SNull => "None"
  | SInt z => pretty z
  | SStr s => s
  | STime t => t
  end.

(** A column value placed in a [jsonify] argument. *)
Definition to_python (v : sqlval) : pyval :=
  match v with
  | SNull => PNone
  | SInt z => PInt z
  | SStr s => PStr s
  | STime t => PStr t
  end.

(** The connector's conversion of a statement parameter; lists and dicts
    have no MySQL counterpart. *)
Definition to_mysql (v : pyval) : option sqlval :=
  match v with
  | PNone => Some SNull
  | PBool b => Some (SInt (if b then 1 else 0))
  | PInt z => Some (SInt z)
  | PStr s => Some (SStr s)
  | PList _ | PDict _ => None
  end.

(** Lookup in a dict literal or a parsed JSON object. *)
Fixpoint assoc {A : Type} (k : string) (d : list (string * A)) : option A :=
  match d with
  | [] => None
  | (k', v) :: d' => if String.eqb k k' then Some v else assoc k d'
  end.

(** ** Tables *)

Record teacher_row := {
  t_teacher_id : sqlval; t_name : sqlval; t_email : sqlval; t_password : sqlval }.

Record class_row := { c_class_id : sqlval; c_class_name : sqlval }.

Record subject_row := { sub_subject_id : sqlval; sub_subject_name : sqlval }.

Record schedule_row := {
  s_schedule_id : sqlval; s_teacher_id : sqlval; s_class_id : sqlval;
  s_subject_id : sqlval; s_day_of_week : sqlval; s_start_time : sqlval;
  s_end_time : sqlval; s_batch : sqlval }.

Record student_row := {
  st_student_id : sqlval; st_name : sqlval; st_email : sqlval; st_batch : sqlval }.

Record attendance_row := {
  a_student_id : sqlval; a_schedule_id : sqlval; a_attendance_date : sqlval;
  a_status : sqlval; a_timestamp : sqlval }.

(** Modelled from the spec: the schema is not part of the source tree; the
    tables and columns are those the statements of teacher_app.py name,
    with the entities of the spec's data model. *)
Record database := {
  Teachers : list teacher_row;
  Classes : list class_row;
  Subjects : list subject_row;
  Schedules : list schedule_row;
  Students : list student_row;
  attendance : list attendance_row }.

Definition set_attendance (d : database) (t : list attendance_row) : database :=
  {| Teachers := Teachers d; Classes := Classes d; Subjects := Subjects d;
     Schedules := Schedules d; Students := Students d; attendance := t |}.

Definition set_Schedules (d : database) (t : list schedule_row) : database :=
  {| Teachers := Teachers d; Classes := Classes d; Subjects := Subjects d;
     Schedules := t; Students := Students d; attendance := attendance d |}.

(** ** World, exceptions and the handler monad *)

(** A connection object: its [is_connected()] flag and the view of the
    database its open transaction sees. *)
Record connection := { connected : bool; work : database }.

(** [reachable] tells whether [create_connection] succeeds; [faults] lists,
    for the statements still to be executed, whether the server rejects
    them (with which message); [conns] is the store of connection objects,
    a handle being an index in it; [now] is the value the server gives the
    timestamp column of a new attendance row; [today] is
    [datetime.datetime.now().strftime('%A')]. *)
Record world := {
  session : gmap string pyval;
  reachable : bool;
  committed : database;
  conns : list connection;
  faults : list (option string);
  now : sqlval;
  today : string }.

Definition set_session (w : world) (s : gmap string pyval) : world :=
  {| session := s; reachable := reachable w; committed := committed w;
     conns := conns w; faults := faults w; now := now w; today := today w |}.

Definition set_committed (w : world) (d : database) : world :=
  {| session := session w; reachable := reachable w; committed := d;
     conns := conns w; faults := faults w; now := now w; today := today w |}.

Definition set_conns (w : world) (cs : list connection) : world :=
  {| session := session w; reachable := reachable w; committed := committed w;
     conns := cs; faults := faults w; now := now w; today := today w |}.

Definition set_faults (w : world) (fs : list (option string)) : world :=
  {| session := session w; reachable := reachable w; committed := committed w;
     conns := conns w; faults := fs; now := now w; today := today w |}.

Inductive exn :=
  | MySQLError (msg : string)
  | KeyError (key : string)
  | TypeError
  | AttributeError.

Inductive result (A : Type) :=
  | Ret (a : A)
  | Raise (e : exn).
Arguments Ret {A} a.
Arguments Raise {A} e.

Definition M (A : Type) : Type := world -> result A * world.

Definition ret {A} (a : A) : M A := fun w => (Ret a, w).

Definition raise {A} (e : exn) : M A := fun w => (Raise e, w).

Definition bind {A B} (m : M A) (k : A -> M B) : M B :=
  fun w => match m w with
           | (Ret a, w') => k a w'
           | (Raise e, w') => (Raise e, w')
           end.

Notation "x <- m ;; k" := (bind m (fun x => k))
  (at level 100, m at next level, right associativity).
Notation "m ;;; k" := (bind m (fun _ => k))
  (at level 100, right associativity).

(** [try: m  except mysql.connector.Error as err: h err] *)
Definition try_except {A} (m : M A) (h : string -> M A) : M A :=
  fun w => match m w with
           | (Raise (MySQLError msg), w') => h msg w'
           | r => r
           end.

(** [try: m  finally: c]: [c] runs on every way out of [m]; an exception
    of [c] replaces the outcome of [m]. *)
Definition try_finally {A} (m : M A) (c : M unit) : M A :=
  fun w => match m w with
           | (r, w') => match c w' with
                        | (Ret _, w'') => (r, w'')
                        | (Raise e, w'') => (Raise e, w'')
                        end
           end.

Definition get_session : M (gmap string pyval) := fun w => (Ret (session w), w).

Definition session_setitem (k : string) (v : pyval) : M unit :=
  fun w => (Ret tt, set_session w (<[k := v]> (session w))).

Definition session_clear : M unit := fun w => (Ret tt, set_session w ∅).

(** The server's timestamp for a new row. *)
Definition get_now : M sqlval := fun w => (Ret (now w), w).

(** [datetime.datetime.now().strftime('%A')] *)
Definition get_today : M string := fun w => (Ret (today w), w).

(** ** Connections and statements *)

(** The connector and the server stand outside the program. What the
    handlers rely on is modelled here: a connection sees the committed data
    plus the uncommitted work of its own transaction; executing a statement
    (a SELECT, an INSERT, COMMIT) is where the server may answer with an
    error, which the connector raises as [mysql.connector.Error];
    [rollback], [is_connected] and [close] themselves do not fail. The
    cursor of a connection is not kept apart from it. *)

(** A connection object is known by its place in the store. *)
Definition handle := nat.

(** Modelled from the spec: [create_connection] comes from teacher_db,
    which is not in the source tree. As each caller expects ([if not conn]),
    it yields a fresh connection, whose transaction starts from the committed
    data, or [None] when the server cannot be reached. *)
Definition create_connection : M (option handle) :=
  fun w =>
    if reachable w
    then (Ret (Some (length (conns w))),
          set_conns w (conns w ++ [ {| connected := true; work := committed w |} ]))
    else (Ret None, w).

Definition is_connected (c : handle) : M bool :=
  fun w => (Ret (match conns w !! c with
                 | Some cn => connected cn
                 | None => false
                 end), w).

(** [conn.close()]: the flag drops and uncommitted work is lost. *)
Definition close (c : handle) : M unit :=
  fun w => (Ret tt,
            set_conns w (<[c := {| connected := false; work := committed w |}]> (conns w))).

(** The server's verdict on the next statement. *)
Definition statement : M unit :=
  fun w => match faults w with
           | Some msg :: fs => (Raise (MySQLError msg), set_faults w fs)
           | _ => (Ret tt, set_faults w (tail (faults w)))
           end.

Definition not_available : string := "MySQL Connection not available.".

(** [cursor.execute] of a SELECT followed by the fetch: [q] computes the
    result set from the transaction's view. *)
Definition execute_select {A} (c : handle) (q : database -> A) : M A :=
  fun w => match conns w !! c with
           | Some cn =>
               if connected cn
               then (statement ;;; ret (q (work cn))) w
               else (Raise (MySQLError not_available), w)
           | None => (Raise (MySQLError not_available), w)
           end.

(** [cursor.execute] of a writing statement: [u] gives the new view and
    the affected-row count. *)
Definition execute_update (c : handle) (u : database -> database * Z) : M Z :=
  fun w => match conns w !! c with
           | Some cn =>
               if connected cn
               then match statement w with
                    | (Ret _, w') =>
                        let (d, n) := u (work cn) in
                        (Ret n, set_conns w' (<[c := {| connected := true; work := d |}]> (conns w')))
                    | (Raise e, w') => (Raise e, w')
                    end
               else (Raise (MySQLError not_available), w)
           | None => (Raise (MySQLError not_available), w)
           end.

(** [conn.commit()] *)
Definition commit (c : handle) : M unit :=
  fun w => match conns w !! c with
           | Some cn =>
               if connected cn
               then match statement w with
                    | (Ret _, w') => (Ret tt, set_committed w' (work cn))
                    | (Raise e, w') => (Raise e, w')
                    end
               else (Raise (MySQLError not_available), w)
           | None => (Raise (MySQLError not_available), w)
           end.

(** [conn.rollback()]: the transaction's view returns to the committed
    data. *)
Definition rollback (c : handle) : M unit :=
  fun w => (Ret tt,
            set_conns w (alter (fun cn => {| connected := connected cn; work := committed w |})
                               c (conns w))).

(** A statement parameter, converted by the connector. *)
Definition param (v : pyval) : M sqlval :=
  match to_mysql v with
  | Some x => ret x
  | None => raise (MySQLError "Failed processing format-parameters")
  end.

(** ** Python helpers *)

(** [v == s] for a str literal [s]. *)
Definition py_eq_str (v : pyval) (s : string) : bool :=
  match v with
  | PStr s' => String.eqb s' s
  | _ => false
  end.

(** [data.get(k)] *)
Definition py_get (v : pyval) (k : string) : M pyval :=
  match v with
  | PDict d => ret (default PNone (assoc k d))
  | _ => raise AttributeError
  end.

(** [item[k]] for a str key [k]. *)
Definition getitem (v : pyval) (k : string) : M pyval :=
  match v with
  | PDict d => match assoc k d with
               | Some x => ret x
               | None => raise (KeyError k)
               end
  | _ => raise TypeError
  end.

(** The items a [for] loop sees. *)
Definition py_iter (v : pyval) : M (list pyval) :=
  match v with
  | PList l => ret l
  | PDict d => ret (map (fun kv => PStr (fst kv)) d)
  | PStr s => ret (map (fun ch => PStr (String ch EmptyString)) (String.list_ascii_of_string s))
  | _ => raise TypeError
  end.

Fixpoint mapM {A B} (f : A -> M B) (l : list A) : M (list B) :=
  match l with
  | [] => ret []
  | x :: l' => y <- f x ;; ys <- mapM f l' ;; ret (y :: ys)
  end.

(** ** Requests and responses *)

Record request := {
  path : string;
  args : list (string * string);
  json : pyval }.

(** [request.args.get(k)] *)
Definition args_get (req : request) (k : string) : pyval :=
  match assoc k (args req) with
  | Some s => PStr s
  | None => PNone
  end.

Inductive body :=
  | Json (v : pyval)
  | Page (template : string)
  | Location (url : string).

Record response := { code : Z; payload : body }.

Definition jsonify (d : list (string * pyval)) (status : Z) : response :=
  {| code := status; payload := Json (PDict d) |}.

Definition failure (message : string) (status : Z) : response :=
  jsonify [("success", PBool false); ("message", PStr message)] status.

Definition redirect (url : string) : response :=
  {| code := 302; payload := Location url |}.

Definition render_template (name : string) : response :=
  {| code := 200; payload := Page name |}.

Definition handler : Type := request -> M response.

(** ** Statements *)

(** Modelled from the spec: how the server compares values, in a WHERE
    clause or a unique key ([sql_eqb]) and in ORDER BY ([sql_leb]), belongs
    to the database, which the spec takes as given. The handlers are
    defined for any such pair. *)
Class Collation := {
  sql_eqb : sqlval -> sqlval -> bool;
  sql_leb : sqlval -> sqlval -> bool }.

Section Handlers.
Context `{Collation}.

(** Lexicographic order of ORDER BY k1, k2, ... *)
Fixpoint lex_leb (ks1 ks2 : list sqlval) : bool :=
  match ks1, ks2 with
  | a :: r1, b :: r2 =>
      if sql_leb a b then (if sql_leb b a then lex_leb r1 r2 else true) else false
  | _, _ => true
  end.

(** The order ORDER BY puts on rows, through their key columns. *)
Definition by_key {A} (key : A -> list sqlval) : relation A :=
  fun a b => lex_leb (key a) (key b) = true.

#[global] Instance by_key_dec {A} (key : A -> list sqlval) (a b : A)
  : Decision (by_key key a b).
Proof. unfold by_key. apply _. Defined.

Definition order_by {A} (key : A -> list sqlval) (l : list A) : list A :=
  merge_sort (by_key key) l.

(** SELECT * FROM Teachers WHERE email = %s AND password = %s *)
Definition select_teacher (email password : sqlval) (d : database) : list teacher_row :=
  List.filter (fun t => sql_eqb (t_email t) email && sql_eqb (t_password t) password)
         (Teachers d).

(** FROM Schedules s JOIN Classes c ON s.class_id = c.class_id
    JOIN Subjects sub ON s.subject_id = sub.subject_id *)
Definition joined (d : database) : list (schedule_row * class_row * subject_row) :=
  flat_map (fun s =>
    flat_map (fun c =>
      map (fun sub => (s, c, sub))
          (List.filter (fun sub => sql_eqb (s_subject_id s) (sub_subject_id sub)) (Subjects d)))
      (List.filter (fun c => sql_eqb (s_class_id s) (c_class_id c)) (Classes d)))
    (Schedules d).

(** ... WHERE s.teacher_id = %s *)
Definition select_schedule (teacher_id : sqlval) (d : database)
  : list (schedule_row * class_row * subject_row) :=
  List.filter (fun j => sql_eqb (s_teacher_id j.1.1) teacher_id) (joined d).

(** ... WHERE s.teacher_id = %s AND s.day_of_week = %s ORDER BY s.start_time *)
Definition select_today (teacher_id day : sqlval) (d : database)
  : list (schedule_row * class_row * subject_row) :=
  order_by (fun j => [s_start_time j.1.1])
    (List.filter (fun j => sql_eqb (s_teacher_id j.1.1) teacher_id
                      && sql_eqb (s_day_of_week j.1.1) day) (joined d)).

(** SELECT DISTINCT s.schedule_id, c.class_name, sub.subject_name, s.batch
    ... WHERE s.teacher_id = %s ORDER BY c.class_name, sub.subject_name, s.batch *)
Definition select_all_classes (teacher_id : sqlval) (d : database)
  : list (sqlval * sqlval * sqlval * sqlval) :=
  order_by (fun r => [r.1.1.2; r.1.2; r.2])
    (remove_dups
      (map (fun j => (s_schedule_id j.1.1, c_class_name j.1.2, sub_subject_name j.2,
                      s_batch j.1.1))
           (select_schedule teacher_id d))).

(** SELECT batch FROM Schedules WHERE schedule_id = %s *)
Definition select_batch (schedule_id : sqlval) (d : database) : list sqlval :=
  map s_batch
      (List.filter (fun s => sql_eqb (s_schedule_id s) schedule_id) (Schedules d)).

(** SELECT student_id, name, email[, batch] FROM Students
    WHERE batch = %s ORDER BY name *)
Definition select_students (batch : sqlval) (d : database) : list student_row :=
  order_by (fun st => [st_name st])
    (List.filter (fun st => sql_eqb (st_batch st) batch) (Students d)).

(** SELECT student_id, status, timestamp FROM attendance
    WHERE schedule_id = %s AND attendance_date = %s *)
Definition select_attendance (schedule_id date : sqlval) (d : database)
  : list attendance_row :=
  List.filter (fun a => sql_eqb (a_schedule_id a) schedule_id
                   && sql_eqb (a_attendance_date a) date) (attendance d).

(** The unique key of the attendance table: student, schedule, date. *)
Definition same_key (r x : attendance_row) : bool :=
  sql_eqb (a_student_id x) (a_student_id r)
  && sql_eqb (a_schedule_id x) (a_schedule_id r)
  && sql_eqb (a_attendance_date x) (a_attendance_date r).

Definition with_status (x : attendance_row) (status : sqlval) : attendance_row :=
  {| a_student_id := a_student_id x; a_schedule_id := a_schedule_id x;
     a_attendance_date := a_attendance_date x; a_status := status;
     a_timestamp := a_timestamp x |}.

(** INSERT INTO attendance (student_id, schedule_id, attendance_date, status)
    VALUES (%s, %s, %s, %s) ON DUPLICATE KEY UPDATE status = VALUES(status),
    with the affected-row count: 1 for a new row, 2 for a changed row, 0 for
    a row left as it was. *)
Fixpoint upsert (r : attendance_row) (t : list attendance_row)
  : list attendance_row * Z :=
  match t with
  | [] => ([r], 1)
  | x :: t' =>
      if same_key r x
      then (if sql_eqb (a_status x) (a_status r)
            then (x :: t', 0)
            else (with_status x (a_status r) :: t', 2))
      else let (t'', n) := upsert r t' in (x :: t'', n)
  end.

Definition insert_attendance (c : handle) (record : pyval * pyval * pyval * pyval)
  : M Z :=
  let '(student_id, schedule_id, date, status) := record in
  p1 <- param student_id ;;
  p2 <- param schedule_id ;;
  p3 <- param date ;;
  p4 <- param status ;;
  stamp <- get_now ;;
  execute_update c (fun d =>
    let (t, n) := upsert {| a_student_id := p1; a_schedule_id := p2;
                            a_attendance_date := p3; a_status := p4;
                            a_timestamp := stamp |} (attendance d) in
    (set_attendance d t, n)).

(** [cursor.executemany(query, records)], one statement per record, and
    the [cursor.rowcount] it leaves. *)
Fixpoint executemany (c : handle) (records : list (pyval * pyval * pyval * pyval))
  : M Z :=
  match records with
  | [] => ret 0
  | r :: rest =>
      n <- insert_attendance c r ;;
      m <- executemany c rest ;;
      ret (n + m)
  end.

(** ** The session guard *)

(** [url_for('teacher_login_page')] *)
Definition url_for_teacher_login_page : string := "/teacher".

(** ['user_type' in session and session['user_type'] == 'teacher'] *)
Definition is_teacher (s : gmap string pyval) : bool :=
  match s !! "user_type" with
  | Some v => py_eq_str v "teacher"
  | None => false
  end.

Definition teacher_required (f : handler) : handler :=
  fun req =>
    s <- get_session ;;
    if negb (is_teacher s)
    then (if String.prefix "/api/" (path req)
          then ret (failure "Authentication required" 401)
          else ret (redirect url_for_teacher_login_page))
    else f req.

(** [finally: if conn.is_connected(): conn.close()] *)
Definition release (c : handle) : M unit :=
  b <- is_connected c ;;
  if b then close c else ret tt.

(** ** Pages, login, logout *)

Definition index : handler :=
  fun _ => ret (redirect url_for_teacher_login_page).

Definition teacher_login_page : handler :=
  fun _ => ret (render_template "teacher_portal.html").

Definition teacher_login_action : handler :=
  fun req =>
    let data := json req in
    email <- py_get data "email" ;;
    password <- py_get data "password" ;;
    if negb (truthy email) || negb (truthy password)
    then ret (failure "Email and password are required." 400)
    else
      conn <- create_connection ;;
      match conn with
      | None => ret (failure "Database error" 500)
      | Some c =>
          try_finally
            (e <- param email ;;
             p <- param password ;;
             rows <- execute_select c (select_teacher e p) ;;
             match head rows with
             | Some teacher =>
                 session_setitem "user_type" (PStr "teacher") ;;;
                 session_setitem "user_id" (to_python (t_teacher_id teacher)) ;;;
                 session_setitem "user_name" (to_python (t_name teacher)) ;;;
                 ret (jsonify [("success", PBool true);
                               ("teacher", PDict [("name", to_python (t_name teacher));
                                                  ("id", to_python (t_teacher_id teacher))])]
                              200)
             | None => ret (failure "Invalid credentials." 401)
             end)
            (release c)
      end.

Definition teacher_logout : handler :=
  fun _ => session_clear ;;; ret (jsonify [("success", PBool true)] 200).

(** [session.get(k)] *)
Definition session_get (s : gmap string pyval) (k : string) : pyval :=
  default PNone (s !! k).

Definition teacher_session : handler :=
  fun _ =>
    s <- get_session ;;
    if py_eq_str (session_get s "user_type") "teacher"
    then ret (jsonify [("logged_in", PBool true);
                       ("teacher", PDict [("id", session_get s "user_id");
                                          ("name", session_get s "user_name")])] 200)
    else ret (jsonify [("logged_in", PBool false)] 200).

(** ** Teacher API endpoints *)

Definition schedule_item (j : schedule_row * class_row * subject_row) : pyval :=
  PDict [("day_of_week", to_python (s_day_of_week j.1.1));
         ("start_time", PStr (sql_str (s_start_time j.1.1)));
         ("end_time", PStr (sql_str (s_end_time j.1.1)));
         ("batch", to_python (s_batch j.1.1));
         ("class_name", to_python (c_class_name j.1.2));
         ("subject_name", to_python (sub_subject_name j.2))].

Definition get_teacher_schedule_body : handler :=
  fun _ =>
    s <- get_session ;;
    let teacher_id := session_get s "user_id" in
    conn <- create_connection ;;
    match conn with
    | None => ret (failure "Database error" 500)
    | Some c =>
        try_finally
          (tid <- param teacher_id ;;
           schedule <- execute_select c (select_schedule tid) ;;
           ret (jsonify [("success", PBool true);
                         ("data", PList (map schedule_item schedule))] 200))
          (release c)
    end.

Definition get_teacher_schedule : handler := teacher_required get_teacher_schedule_body.

Definition today_item (j : schedule_row * class_row * subject_row) : pyval :=
  PDict [("schedule_id", to_python (s_schedule_id j.1.1));
         ("start_time", PStr (sql_str (s_start_time j.1.1)));
         ("end_time", PStr (sql_str (s_end_time j.1.1)));
         ("batch", to_python (s_batch j.1.1));
         ("class_name", to_python (c_class_name j.1.2));
         ("subject_name", to_python (sub_subject_name j.2))].

Definition get_today_classes_body : handler :=
  fun _ =>
    s <- get_session ;;
    let teacher_id := session_get s "user_id" in
    today_name <- get_today ;;
    conn <- create_connection ;;
    match conn with
    | None => ret (failure "Database error" 500)
    | Some c =>
        try_finally
          (tid <- param teacher_id ;;
           day <- param (PStr today_name) ;;
           classes <- execute_select c (select_today tid day) ;;
           ret (jsonify [("success", PBool true);
                         ("data", PList (map today_item classes))] 200))
          (release c)
    end.

Definition get_today_classes : handler := teacher_required get_today_classes_body.

Definition class_item (r : sqlval * sqlval * sqlval * sqlval) : pyval :=
  PDict [("schedule_id", to_python r.1.1.1);
         ("class_name", to_python r.1.1.2);
         ("subject_name", to_python r.1.2);
         ("batch", to_python r.2)].

Definition get_all_teacher_classes_body : handler :=
  fun _ =>
    s <- get_session ;;
    let teacher_id := session_get s "user_id" in
    conn <- create_connection ;;
    match conn with
    | None => ret (failure "Database error" 500)
    | Some c =>
        try_finally
          (tid <- param teacher_id ;;
           rows <- execute_select c (select_all_classes tid) ;;
           ret (jsonify [("success", PBool true);
                         ("data", PList (map class_item rows))] 200))
          (release c)
    end.

Definition get_all_teacher_classes : handler :=
  teacher_required get_all_teacher_classes_body.

Definition student_item (st : student_row) : pyval :=
  PDict [("student_id", to_python (st_student_id st));
         ("name", to_python (st_name st));
         ("email", to_python (st_email st));
         ("batch", to_python (st_batch st))].

Definition get_class_students_body : handler :=
  fun req =>
    let schedule_id := args_get req "schedule_id" in
    if negb (truthy schedule_id)
    then ret (failure "Schedule ID is required." 400)
    else
      conn <- create_connection ;;
      match conn with
      | None => ret (failure "Database error" 500)
      | Some c =>
          try_finally
            (try_except
               (sid <- param schedule_id ;;
                rows <- execute_select c (select_batch sid) ;;
                match head rows with
                | None => ret (failure "Schedule not found." 404)
                | Some batch =>
                    students <- execute_select c (select_students batch) ;;
                    ret (jsonify [("success", PBool true);
                                  ("data", PList (map student_item students))] 200)
                end)
               (fun err => ret (failure ("Database Error: " +:+ err) 500)))
            (release c)
      end.

Definition get_class_students : handler := teacher_required get_class_students_body.

(** [[(item['student_id'], schedule_id, date, item['status']) for item in
    attendance_data]] *)
Definition build_records (schedule_id date attendance_data : pyval)
  : M (list (pyval * pyval * pyval * pyval)) :=
  items <- py_iter attendance_data ;;
  mapM (fun item =>
          student_id <- getitem item "student_id" ;;
          status <- getitem item "status" ;;
          ret (student_id, schedule_id, date, status)) items.

Definition mark_attendance_body : handler :=
  fun req =>
    let data := json req in
    schedule_id <- py_get data "schedule_id" ;;
    date <- py_get data "date" ;;
    attendance_data <- py_get data "attendance_data" ;;
    if negb (forallb truthy [schedule_id; date; attendance_data])
    then ret (failure "Missing required data." 400)
    else
      conn <- create_connection ;;
      match conn with
      | None => ret (failure "Database error" 500)
      | Some c =>
          try_finally
            (try_except
               (records <- build_records schedule_id date attendance_data ;;
                rowcount <- executemany c records ;;
                commit c ;;;
                ret (jsonify [("success", PBool true);
                              ("message", PStr ("Attendance for " +:+ pretty rowcount
                                                +:+ " students saved."))] 200))
               (fun err => rollback c ;;; ret (failure err 500)))
            (release c)
      end.

Definition mark_attendance : handler := teacher_required mark_attendance_body.

(** [{rec['student_id']: rec for rec in cursor.fetchall()}]: a later row
    replaces an earlier one with the same student id. *)
Definition attendance_dict (rows : list attendance_row) : gmap sqlval attendance_row :=
  foldl (fun m rec => <[a_student_id rec := rec]> m) ∅ rows.

(** One turn of the merge loop: the record appended for [student]. *)
Definition merged_item (attendance_records : gmap sqlval attendance_row)
    (student : student_row) : pyval :=
  let record := attendance_records !! st_student_id student in
  let status := match record with
                | Some r => to_python (a_status r)
                | None => PStr "absent"
                end in
  let timestamp_str := match record with
                       | Some r => if sql_truthy (a_timestamp r)
                                   then PStr (sql_str (a_timestamp r))
                                   else PNone
                       | None => PNone
                       end in
  PDict [("student_id", to_python (st_student_id student));
         ("student_name", to_python (st_name student));
         ("student_email", to_python (st_email student));
         ("status", status);
         ("timestamp", timestamp_str)].

Definition view_attendance_body : handler :=
  fun req =>
    let schedule_id := args_get req "schedule_id" in
    let date := args_get req "date" in
    if negb (truthy schedule_id) || negb (truthy date)
    then ret (failure "Schedule ID and date are required." 400)
    else
      conn <- create_connection ;;
      match conn with
      | None => ret (failure "Database error" 500)
      | Some c =>
          try_finally
            (try_except
               (sid <- param schedule_id ;;
                rows <- execute_select c (select_batch sid) ;;
                match head rows with
                | None => ret (failure "Schedule not found." 404)
                | Some batch =>
                    all_students <- execute_select c (select_students batch) ;;
                    dt <- param date ;;
                    recs <- execute_select c (select_attendance sid dt) ;;
                    let attendance_records := attendance_dict recs in
                    let full_attendance_list :=
                      map (merged_item attendance_records) all_students in
                    ret (jsonify [("success", PBool true);
                                  ("data", PList full_attendance_list)] 200)
                end)
               (fun err => ret (failure ("Database error: " +:+ err) 500)))
            (release c)
      end.

Definition view_attendance : handler := teacher_required view_attendance_body.

(** ** Routes *)

Inductive endpoint :=
  | ep_index
  | ep_teacher_login_page
  | ep_teacher_login_action
  | ep_teacher_logout
  | ep_teacher_session
  | ep_get_teacher_schedule
  | ep_get_today_classes
  | ep_get_all_teacher_classes
  | ep_get_class_students
  | ep_mark_attendance
  | ep_view_attendance.

(** The rule of each [@app.route]. *)
Definition rule (e : endpoint) : string :=
  match e with
  | ep_index => "/"
  | ep_teacher_login_page => "/teacher"
  | ep_teacher_login_action => "/teacher/login"
  | ep_teacher_logout => "/teacher/logout"
  | ep_teacher_session => "/api/teacher/session"
  | ep_get_teacher_schedule => "/api/teacher/schedule"
  | ep_get_today_classes => "/api/teacher/today_classes"
  | ep_get_all_teacher_classes => "/api/teacher/all_classes"
  | ep_get_class_students => "/api/teacher/class_students"
  | ep_mark_attendance => "/api/teacher/mark_attendance"
  | ep_view_attendance => "/api/teacher/attendance"
  end.

Definition view_function (e : endpoint) : handler :=
  match e with
  | ep_index => index
  | ep_teacher_login_page => teacher_login_page
  | ep_teacher_login_action => teacher_login_action
  | ep_teacher_logout => teacher_logout
  | ep_teacher_session => teacher_session
  | ep_get_teacher_schedule => get_teacher_schedule
  | ep_get_today_classes => get_today_classes
  | ep_get_all_teacher_classes => get_all_teacher_classes
  | ep_get_class_students => get_class_students
  | ep_mark_attendance => mark_attendance
  | ep_view_attendance => view_attendance
  end.

End Handlers.

(** ** Observations *)

(** The first rejection among the next [n] statements, if any. *)
Fixpoint first_fault (n : nat) (fs : list (option string)) : option string :=
  match n, fs with
  | S n', Some msg :: _ => Some msg
  | S n', None :: fs' => first_fault n' fs'
  | _, _ => None
  end.

(** The [is_connected()] flags of all connection objects. *)
Definition flags (w : world) : list bool := map connected (conns w).

Definition open_connections (w : world) : nat :=
  length (List.filter (fun b : bool => b) (flags w)).

(** A JSON response with a [data] member. *)
Definition has_data (r : response) : bool :=
  match payload r with
  | Json (PDict d) => match assoc "data" d with Some _ => true | None => false end
  | _ => false
  end.

(** The [data] list of a successful JSON response. *)
Definition data_of (r : response) : option (list pyval) :=
  match payload r with
  | Json (PDict d) => match assoc "data" d with
                      | Some (PList l) => Some l
                      | _ => None
                      end
  | _ => None
  end.

(** The uniform failure shape [{success: false, message}]. *)
Definition is_failure (r : response) : Prop :=
  exists message status, r = failure message status.

(** ** Predicates on computations *)

(** [preserves f m]: running [m] does not change the observation [f] of
    the world, whatever the outcome. *)
Definition preserves {A X} (f : world -> X) (m : M A) : Prop :=
  forall w, f (m w).2 = f w.

(** [closes_up m]: whatever [m] does, the connection objects that existed
    keep their flag and every one [m] created is closed at the end. *)
Definition closes_up {A} (m : M A) : Prop :=
  forall w, exists k, flags (m w).2 = (flags w ++ replicate k false)%list.

(** [returns Q E m]: when [m] returns, the value satisfies [Q]; when it
    raises, the exception satisfies [E]. *)
Definition returns {A} (Q : A -> Prop) (E : exn -> Prop) (m : M A) : Prop :=
  forall w, match (m w).1 with
            | Ret a => Q a
            | Raise e => E e
            end.

Definition anything {A} : A -> Prop := fun _ => True.

Definition not_mysql (e : exn) : Prop := forall msg, e <> MySQLError msg.

(** What the three handlers with an [except] clause may answer. *)
Definition ok_or_failure (r : response) : Prop := code r = 200 \/ is_failure r.

(** [quiet f m]: [m] changes the observation [f] of the world only when it
    answers 200. *)
Definition quiet {X} (f : world -> X) (m : M response) : Prop :=
  forall w, match (m w).1 with
            | Ret resp => code resp = 200 \/ f (m w).2 = f w
            | Raise _ => f (m w).2 = f w
            end.

(** ** Worlds along a request, and variations of the data *)

(** The world right after [create_connection] succeeded. *)
Definition opened (w : world) : world :=
  set_conns w (conns w ++ [ {| connected := true; work := committed w |} ]).

(** The world after [conn.close()]. *)
Definition closed_at (c : handle) (w : world) : world :=
  set_conns w (<[c := {| connected := false; work := committed w |}]> (conns w)).

(** A schedule table whose class ids have been replaced. *)
Definition with_class_id (g : schedule_row -> sqlval) (s : schedule_row) : schedule_row :=
  {| s_schedule_id := s_schedule_id s; s_teacher_id := s_teacher_id s;
     s_class_id := g s; s_subject_id := s_subject_id s;
     s_day_of_week := s_day_of_week s; s_start_time := s_start_time s;
     s_end_time := s_end_time s; s_batch := s_batch s |}.

Definition reclass (g : schedule_row -> sqlval) (w : world) : world :=
  set_committed w (set_Schedules (committed w)
                                 (map (with_class_id g) (Schedules (committed w)))).

(** The record the merge emits for a student, given the status and the
    timestamp text. *)
Definition emitted (student : student_row) (status timestamp_str : pyval) : pyval :=
  PDict [("student_id", to_python (st_student_id student));
         ("student_name", to_python (st_name student));
         ("student_email", to_python (st_email student));
         ("status", status);
         ("timestamp", timestamp_str)].

#[global] Instance attendance_row_eq_dec : EqDecision attendance_row.
Proof. solve_decision. Defined.

(** ** A concrete server and the school of the spec's example *)

(** A server that equates identical values and an integer with its
    decimal text, NULL with nothing, and orders NULL, then integers, then
    text and time values by code point. *)
Definition plain_eqb (a b : sqlval) : bool :=
  match a, b with
  | SNull, _ | _, SNull => false
  | SInt x, SInt y => x =? y
  | SInt x, SStr s | SStr s, SInt x => String.eqb (pretty x) s
  | SStr s, SStr t => String.eqb s t
  | STime s, STime t => String.eqb s t
  | _, _ => false
  end.

Definition rank (a : sqlval) : Z :=
  match a with SNull => 0 | SInt _ => 1 | SStr _ => 2 | STime _ => 3 end.

Definition plain_leb (a b : sqlval) : bool :=
  match a, b with
  | SInt x, SInt y => x <=? y
  | SStr s, SStr t => String.leb s t
  | STime s, STime t => String.leb s t
  | _, _ => rank a <=? rank b
  end.

Definition plain : Collation := {| sql_eqb := plain_eqb; sql_leb := plain_leb |}.

Definition schedule12 : schedule_row :=
  {| s_schedule_id := SInt 12; s_teacher_id := SInt 5;
     s_class_id := SInt 1; s_subject_id := SInt 7;
     s_day_of_week := SStr "Monday"; s_start_time := STime "9:00:00";
     s_end_time := STime "10:00:00"; s_batch := SStr "B1" |}.

Definition asha : teacher_row :=
  {| t_teacher_id := SInt 5; t_name := SStr "Asha";
     t_email := SStr "asha@school.test"; t_password := SStr "s3cret" |}.

Definition alice : student_row :=
  {| st_student_id := SInt 1; st_name := SStr "Alice";
     st_email := SStr "alice@school.test"; st_batch := SStr "B1" |}.

Definition bob : student_row :=
  {| st_student_id := SInt 2; st_name := SStr "Bob";
     st_email := SStr "bob@school.test"; st_batch := SStr "B1" |}.

Definition carol : student_row :=
  {| st_student_id := SInt 3; st_name := SStr "Carol";
     st_email := SStr "carol@school.test"; st_batch := SStr "B2" |}.

Definition alice_present : attendance_row :=
  {| a_student_id := SInt 1; a_schedule_id := SInt 12;
     a_attendance_date := SStr "2024-03-04"; a_status := SStr "present";
     a_timestamp := STime "2024-03-04 09:02:11" |}.

(** The school of the spec's example: teacher 5 holds schedule 12 for batch
    B1, in which Alice and Bob are; Carol is in B2. *)
Definition school : database :=
  {| Teachers := [asha];
     Classes := [ {| c_class_id := SInt 1; c_class_name := SStr "CS-A" |} ];
     Subjects := [ {| sub_subject_id := SInt 7; sub_subject_name := SStr "Maths" |} ];
     Schedules := [schedule12];
     Students := [bob; carol; alice];
     attendance := [alice_present] |}.

Definition teacher_cookie : gmap string pyval :=
  <["user_name" := PStr "Asha"]> (<["user_id" := PInt 5]> (<["user_type" := PStr "teacher"]> ∅)).

Definition world_of (s : gmap string pyval) (up : bool) (fs : list (option string)) : world :=
  {| session := s; reachable := up; committed := school; conns := [];
     faults := fs; now := STime "2024-03-04 09:05:00"; today := "Monday" |}.

Definition get (p : string) (a : list (string * string)) : request :=
  {| path := p; args := a; json := PNone |}.

Definition post (p : string) (j : pyval) : request :=
  {| path := p; args := []; json := j |}.

(** A logged-in teacher, a reachable server that rejects nothing. *)
Definition monday : world := world_of teacher_cookie true [].

(** Nobody logged in. *)
Definition anonymous : world := world_of ∅ true [].

(** A logged-in teacher, a server that rejects the second statement. *)
Definition stormy : world := world_of teacher_cookie true [None; Some "Lock wait timeout exceeded"].

Definition attendance_request : request :=
  get "/api/teacher/attendance" [("schedule_id", "12"); ("date", "2024-03-04")].

Definition roster_request : request :=
  get "/api/teacher/class_students" [("schedule_id", "12")].

Definition roster_request_no_id : request := get "/api/teacher/class_students" [].

Definition roster_request_unknown : request :=
  get "/api/teacher/class_students" [("schedule_id", "99")].

Definition session_request : request := get "/api/teacher/session" [].

Definition login_request (password : string) : request :=
  post "/teacher/login"
       (PDict [("email", PStr "asha@school.test"); ("password", PStr password)]).

Definition mark_request (attendance_data : pyval) : request :=
  post "/api/teacher/mark_attendance"
       (PDict [("schedule_id", PInt 12); ("date", PStr "2024-03-05");
               ("attendance_data", attendance_data)]).

Definition two_marks : pyval :=
  PList [PDict [("student_id", PInt 1); ("status", PStr "present")];
         PDict [("student_id", PInt 2); ("status", PStr "late")]].

Definition mark_without_student_id : pyval :=
  PList [PDict [("status", PStr "present")]].

(** ** Observations for the remaining handlers *)

(** The routes whose handler opens a database connection. *)
Definition uses_database (e : endpoint) : bool :=
  match e with
  | ep_index | ep_teacher_login_page | ep_teacher_logout | ep_teacher_session => false
  | _ => true
  end.

(** A member of a JSON object. *)
Definition field (k : string) (v : pyval) : option pyval :=
  match v with
  | PDict d => assoc k d
  | _ => None
  end.

(** The session after a login as [teacher]. *)
Definition logged_in (teacher : teacher_row) (s : gmap string pyval) : gmap string pyval :=
  <["user_name" := to_python (t_name teacher)]>
    (<["user_id" := to_python (t_teacher_id teacher)]>
       (<["user_type" := PStr "teacher"]> s)).

(** The exception the comprehension of mark_attendance raises on an item:
    none for an object with both keys. *)
Definition item_error (item : pyval) : option exn :=
  match item with
  | PDict d =>
      match assoc "student_id" d, assoc "status" d with
      | None, _ => Some (KeyError "student_id")
      | Some _, None => Some (KeyError "status")
      | Some _, Some _ => None
      end
  | _ => Some TypeError
  end.

(** The attendance row an executed record stands for, with the timestamp
    the server gives a new row. *)
Definition row_of (stamp : sqlval) (record : pyval * pyval * pyval * pyval)
  : option attendance_row :=
  let '(student_id, schedule_id, date, status) := record in
  match to_mysql student_id, to_mysql schedule_id, to_mysql date, to_mysql status with
  | Some p1, Some p2, Some p3, Some p4 =>
      Some {| a_student_id := p1; a_schedule_id := p2; a_attendance_date := p3;
              a_status := p4; a_timestamp := stamp |}
  | _, _, _, _ => None
  end.

Section Batches.
Context `{Collation}.

(** The table and the affected-row count after the upserts of a whole
    batch, in order. *)
Fixpoint upsert_all (rows : list attendance_row) (t : list attendance_row)
  : list attendance_row * Z :=
  match rows with
  | [] => (t, 0)
  | r :: rest =>
      let (t1, n) := upsert r t in
      let (t2, m) := upsert_all rest t1 in
      (t2, n + m)
  end.

(** No row of the table has the key of an earlier row. *)
Fixpoint unique_keys (t : list attendance_row) : bool :=
  match t with
  | [] => true
  | x :: t' => forallb (fun y => negb (same_key y x)) t' && unique_keys t'
  end.

End Batches.

(** [pure m]: [m] neither reads nor changes the world. *)
Definition pure {A} (m : M A) : Prop :=
  forall w w0, m w = ((m w0).1, w).

(** [keeps P m]: a world in which [P] holds is taken by [m] to a world in
    which it holds, whatever the outcome. *)
Definition keeps {A} (P : world -> Prop) (m : M A) : Prop :=
  forall w, P w -> P (m w).2.

Section Keyed.
Context `{Collation}.

(** The attendance table has a unique key, in the committed data and in
    the view of every transaction. *)
Definition well_keyed (w : world) : Prop :=
  unique_keys (attendance (committed w)) = true
  /\ Forall (fun cn => unique_keys (attendance (work cn)) = true) (conns w).

End Keyed.

(** ** More of the school: worlds and requests for the remaining routes *)

(** A logged-in teacher while the server cannot be reached. *)
Definition offline : world := world_of teacher_cookie false [].

(** Nobody logged in, a server that rejects the first statement. *)
Definition gone_away : world := world_of ∅ true [Some "Server has gone away"].

(** A logged-in teacher, a server that rejects the first statement. *)
Definition crashed : world := world_of teacher_cookie true [Some "Table is marked as crashed"].

(** A login whose body is the JSON value null. *)
Definition null_login : request := post "/teacher/login" PNone.

(** A mark_attendance request whose schedule_id is the number 0. *)
Definition mark_schedule_zero : request :=
  post "/api/teacher/mark_attendance"
       (PDict [("schedule_id", PInt 0); ("date", PStr "2024-03-05");
               ("attendance_data", two_marks)]).

Definition alice_mark : pyval :=
  PDict [("student_id", PInt 1); ("status", PStr "present")].

Definition mark_without_status : pyval := PDict [("student_id", PInt 2)].

Definition attendance_request_no_date : request :=
  get "/api/teacher/attendance" [("schedule_id", "12")].

Definition attendance_request_unknown : request :=
  get "/api/teacher/attendance" [("schedule_id", "99"); ("date", "2024-03-04")].

Definition schedule_request : request := get "/api/teacher/schedule" [].

Definition today_request : request := get "/api/teacher/today_classes" [].

Definition classes_request : request := get "/api/teacher/all_classes" [].

Definition maths_a : class_row := {| c_class_id := SInt 1; c_class_name := SStr "CS-A" |}.

Definition maths : subject_row := {| sub_subject_id := SInt 7; sub_subject_name := SStr "Maths" |}.

(** Bob marked late on the day after Alice's row, stamped by the server. *)
Definition bob_late : attendance_row :=
  {| a_student_id := SInt 2; a_schedule_id := SInt 12;
     a_attendance_date := SStr "2024-03-05"; a_status := SStr "late";
     a_timestamp := STime "2024-03-04 09:05:00" |}.

Definition alice_present_next_day : attendance_row :=
  {| a_student_id := SInt 1; a_schedule_id := SInt 12;
     a_attendance_date := SStr "2024-03-05"; a_status := SStr "present";
     a_timestamp := STime "2024-03-04 09:05:00" |}.

(** * Properties *)

(** ** Running the monad *)

Lemma bind_run {A B} (m : M A) (k : A -> M B) w a w' :
  m w = (Ret a, w') -> bind m k w = k a w'.
Proof. intros E. unfold bind. by rewrite E. Qed.

Lemma bind_raise {A B} (m : M A) (k : A -> M B) w e w' :
  m w = (Raise e, w') -> bind m k w = (Raise e, w').
Proof. intros E. unfold bind. by rewrite E. Qed.

Lemma first_fault_tail n fs :
  first_fault (S n) fs = None -> first_fault n (tail fs) = None.
Proof. destruct fs as [|[msg|] fs]; simpl; try done. by destruct n. Qed.

Lemma statement_run n w :
  first_fault (S n) (faults w) = None ->
  statement w = (Ret tt, set_faults w (tail (faults w))).
Proof. unfold statement. by destruct (faults w) as [|[msg|] fs]. Qed.

Lemma statement_fault w msg fs :
  faults w = Some msg :: fs ->
  statement w = (Raise (MySQLError msg), set_faults w fs).
Proof. unfold statement. by intros ->. Qed.

Lemma execute_select_run {A} (q : database -> A) n c cn w :
  conns w !! c = Some cn -> connected cn = true ->
  first_fault (S n) (faults w) = None ->
  execute_select c q w = (Ret (q (work cn)), set_faults w (tail (faults w))).
Proof.
  intros Hc Hon Hf. unfold execute_select. rewrite Hc, Hon.
  unfold bind. by rewrite (statement_run n).
Qed.

Lemma create_connection_run w :
  reachable w = true ->
  create_connection w =
    (Ret (Some (length (conns w))),
     set_conns w (conns w ++ [ {| connected := true; work := committed w |} ])).
Proof. unfold create_connection. by intros ->. Qed.

Lemma release_run c cn w :
  conns w !! c = Some cn -> connected cn = true ->
  release c w =
    (Ret tt, set_conns w (<[c := {| connected := false; work := committed w |}]> (conns w))).
Proof. intros Hc Hon. unfold release, bind, is_connected. by rewrite Hc, Hon. Qed.

(** ** What a computation leaves alone *)

Section Preserves.
Context {X : Type} (f : world -> X).

Lemma preserves_ret {A} (a : A) : preserves f (ret a).
Proof. done. Qed.

Lemma preserves_raise {A} e : preserves f (@raise A e).
Proof. done. Qed.

Lemma preserves_bind {A B} (m : M A) (k : A -> M B) :
  preserves f m -> (forall a, preserves f (k a)) -> preserves f (bind m k).
Proof.
  intros Hm Hk w. unfold bind. specialize (Hm w).
  destruct (m w) as [[a|e] w1]; simpl in *; [|done].
  by rewrite Hk.
Qed.

Lemma preserves_try_except {A} (m : M A) h :
  preserves f m -> (forall msg, preserves f (h msg)) -> preserves f (try_except m h).
Proof.
  intros Hm Hh w. unfold try_except. specialize (Hm w).
  destruct (m w) as [[a|[]] w1]; simpl in *; try done.
  by rewrite Hh.
Qed.

Lemma preserves_try_finally {A} (m : M A) c :
  preserves f m -> preserves f c -> preserves f (try_finally m c).
Proof.
  intros Hm Hc w. unfold try_finally. specialize (Hm w).
  destruct (m w) as [r w1]. specialize (Hc w1).
  destruct (c w1) as [[]]; simpl in *; congruence.
Qed.

Lemma preserves_mapM {A B} (g : A -> M B) l :
  (forall a, preserves f (g a)) -> preserves f (mapM g l).
Proof.
  intros Hg. induction l as [|a l IH]; simpl.
  - apply preserves_ret.
  - apply preserves_bind; [done|]. intros b.
    apply preserves_bind; [done|]. intros bs. apply preserves_ret.
Qed.

Lemma preserves_param v : preserves f (param v).
Proof. unfold param. destruct (to_mysql v); [apply preserves_ret | apply preserves_raise]. Qed.

Lemma preserves_py_get v k : preserves f (py_get v k).
Proof. destruct v; simpl; first [apply preserves_ret | apply preserves_raise]. Qed.

Lemma preserves_getitem v k : preserves f (getitem v k).
Proof.
  destruct v; simpl; try apply preserves_raise.
  destruct (assoc k d); [apply preserves_ret | apply preserves_raise].
Qed.

Lemma preserves_py_iter v : preserves f (py_iter v).
Proof. destruct v; simpl; first [apply preserves_ret | apply preserves_raise]. Qed.

Lemma preserves_get_session : preserves f get_session.
Proof. done. Qed.

Lemma preserves_get_now : preserves f get_now.
Proof. done. Qed.

Lemma preserves_get_today : preserves f get_today.
Proof. done. Qed.

Lemma preserves_is_connected c : preserves f (is_connected c).
Proof. done. Qed.

End Preserves.

Lemma flags_insert (l : list connection) c cn x :
  l !! c = Some cn -> connected x = connected cn ->
  map connected (<[c := x]> l) = map connected l.
Proof.
  intros Hc Hx. change (connected <$> <[c := x]> l = connected <$> l).
  rewrite list_fmap_insert. apply list_insert_id.
  by rewrite list_lookup_fmap, Hc, Hx.
Qed.

Lemma flags_alter (l : list connection) c g :
  (forall cn, connected (g cn) = connected cn) ->
  map connected (alter g c l) = map connected l.
Proof.
  intros Hg. revert c. induction l as [|x l IH]; intros [|c]; simpl; try done.
  - by rewrite Hg.
  - f_equal. apply IH.
Qed.

Ltac prim :=
  intros w;
  unfold execute_select, execute_update, commit, rollback, close, create_connection,
         session_setitem, session_clear, bind, statement, ret;
  repeat case_match; simplify_eq/=; try done.

(** *** Connection flags *)

Lemma flags_statement : preserves flags statement.
Proof. prim. Qed.

Lemma flags_execute_select {A} c (q : database -> A) : preserves flags (execute_select c q).
Proof. prim. Qed.

Lemma flags_execute_update c u : preserves flags (execute_update c u).
Proof. prim; unfold flags; simpl; by eapply flags_insert. Qed.

Lemma flags_commit c : preserves flags (commit c).
Proof. prim. Qed.

Lemma flags_rollback c : preserves flags (rollback c).
Proof. prim; unfold flags; simpl; by apply flags_alter. Qed.

Lemma flags_session_setitem k v : preserves flags (session_setitem k v).
Proof. prim. Qed.

Lemma flags_session_clear : preserves flags session_clear.
Proof. prim. Qed.

(** *** Committed data: only a successful [commit] changes it *)

Lemma committed_statement : preserves committed statement.
Proof. prim. Qed.

Lemma committed_execute_select {A} c (q : database -> A) :
  preserves committed (execute_select c q).
Proof. prim. Qed.

Lemma committed_execute_update c u : preserves committed (execute_update c u).
Proof. prim. Qed.

Lemma committed_rollback c : preserves committed (rollback c).
Proof. prim. Qed.

Lemma committed_close c : preserves committed (close c).
Proof. prim. Qed.

Lemma committed_create_connection : preserves committed create_connection.
Proof. prim. Qed.

Lemma committed_session_setitem k v : preserves committed (session_setitem k v).
Proof. prim. Qed.

Lemma committed_session_clear : preserves committed session_clear.
Proof. prim. Qed.

(** *** Session: only [session[k] = v] and [session.clear()] change it *)

Lemma session_statement : preserves session statement.
Proof. prim. Qed.

Lemma session_execute_select {A} c (q : database -> A) :
  preserves session (execute_select c q).
Proof. prim. Qed.

Lemma session_execute_update c u : preserves session (execute_update c u).
Proof. prim. Qed.

Lemma session_commit c : preserves session (commit c).
Proof. prim. Qed.

Lemma session_rollback c : preserves session (rollback c).
Proof. prim. Qed.

Lemma session_close c : preserves session (close c).
Proof. prim. Qed.

Lemma session_create_connection : preserves session create_connection.
Proof. prim. Qed.

Create HintDb frame discriminated.

#[global] Hint Resolve preserves_ret preserves_raise preserves_param preserves_py_get
  preserves_getitem preserves_py_iter preserves_get_session preserves_get_now
  preserves_get_today preserves_is_connected
  flags_statement flags_execute_select flags_execute_update flags_commit flags_rollback
  flags_session_setitem flags_session_clear
  committed_statement committed_execute_select committed_execute_update
  committed_rollback committed_close committed_create_connection
  committed_session_setitem committed_session_clear
  session_statement session_execute_select session_execute_update session_commit
  session_rollback session_close session_create_connection : frame.

(** Breaks a straight-line computation into its primitives. *)
Ltac frame :=
  repeat first
    [ apply preserves_bind; [|intros ?]
    | apply preserves_try_except; [|intros ?]
    | apply preserves_try_finally
    | apply preserves_mapM; intros ?
    | match goal with
      | |- preserves _ (match ?x with _ => _ end) => destruct x
      | |- preserves _ (let '(_, _) := ?x in _) => destruct x
      end
    | solve [auto with frame] ].

(** ** Connections are given back *)

Lemma closes_up_preserves {A} (m : M A) : preserves flags m -> closes_up m.
Proof. intros Hm w. exists 0%nat. by rewrite Hm, app_nil_r. Qed.

Lemma closes_up_bind {A B} (m : M A) (k : A -> M B) :
  closes_up m -> (forall a, closes_up (k a)) -> closes_up (bind m k).
Proof.
  intros Hm Hk w. unfold bind. destruct (Hm w) as [n Hn].
  destruct (m w) as [[a|e] w1]; simpl in *; [|by exists n].
  destruct (Hk a w1) as [n' Hn']. exists (n + n')%nat.
  by rewrite Hn', Hn, replicate_add, app_assoc.
Qed.

(** The shape every handler gives its database work: acquire, [try] the
    work, [finally] release. *)
Lemma closes_up_connection {A} (m0 : M A) (work_with : handle -> M A) :
  closes_up m0 ->
  (forall c, preserves flags (work_with c)) ->
  closes_up (conn <- create_connection ;;
             match conn with
             | None => m0
             | Some c => try_finally (work_with c) (release c)
             end).
Proof.
  intros H0 Hbody w. unfold bind at 1, create_connection.
  destruct (reachable w); [|apply H0].
  set (c := length (conns w)).
  set (w1 := set_conns w _).
  assert (Hw1 : flags w1 = (flags w ++ [true])%list).
  { unfold flags, w1; simpl. by rewrite map_app. }
  unfold try_finally. specialize (Hbody c w1).
  destruct (work_with c w1) as [r w2]; simpl in Hbody.
  assert (Hc : exists cn, conns w2 !! c = Some cn /\ connected cn = true).
  { assert (Hl : flags w2 !! c = Some true).
    { rewrite Hbody, Hw1. apply list_lookup_middle.
      unfold flags, c. by rewrite length_map. }
    unfold flags in Hl. change (map connected (conns w2)) with (connected <$> conns w2) in Hl.
    rewrite list_lookup_fmap in Hl.
    destruct (conns w2 !! c) as [cn|]; simplify_eq/=. by exists cn. }
  destruct Hc as (cn & Hcn & Hon).
  rewrite (release_run c cn w2 Hcn Hon). simpl.
  exists 1%nat. unfold flags at 1; simpl.
  change (connected <$> <[c := {| connected := false; work := committed w2 |}]> (conns w2)
          = (flags w ++ [false])%list).
  rewrite list_fmap_insert. simpl.
  change (connected <$> conns w2) with (flags w2). rewrite Hbody, Hw1.
  replace c with (length (flags w) + 0)%nat
    by (unfold flags, c; rewrite length_map; lia).
  by rewrite insert_app_r.
Qed.

Lemma open_connections_closed w w' k :
  flags w' = (flags w ++ replicate k false)%list ->
  open_connections w' = open_connections w.
Proof.
  intros E. unfold open_connections. rewrite E, List.filter_app, length_app.
  assert (List.filter (fun b : bool => b) (replicate k false) = []) as ->.
  { clear E. induction k as [|k IH]; [done|]. exact IH. }
  simpl. lia.
Qed.

Section Released.
Context `{Collation}.

Lemma flags_insert_attendance c r : preserves flags (insert_attendance c r).
Proof. destruct r as [[[? ?] ?] ?]. unfold insert_attendance. frame. Qed.

Lemma flags_executemany c rs : preserves flags (executemany c rs).
Proof.
  induction rs as [|r rs IH]; simpl; [apply preserves_ret|].
  apply preserves_bind; [apply flags_insert_attendance|]. intros n.
  apply preserves_bind; [done|]. intros m. apply preserves_ret.
Qed.

Lemma closes_up_teacher_required (f : handler) req :
  closes_up (f req) -> closes_up (teacher_required f req).
Proof.
  intros Hf. unfold teacher_required. apply closes_up_bind.
  - apply closes_up_preserves, preserves_get_session.
  - intros s. repeat case_match; try done; apply closes_up_preserves, preserves_ret.
Qed.

Lemma closes_up_view_function e req : closes_up (view_function e req).
Proof.
  destruct e; simpl;
    try (apply closes_up_teacher_required);
    try (apply closes_up_preserves; solve [frame]).
  all: unfold teacher_login_action, get_teacher_schedule_body, get_today_classes_body,
         get_all_teacher_classes_body, get_class_students_body, mark_attendance_body,
         view_attendance_body, build_records.
  all: repeat first
         [ apply closes_up_connection;
             [ apply closes_up_preserves, preserves_ret
             | intros c; pose proof (flags_executemany c); frame ]
         | apply closes_up_bind; [apply closes_up_preserves; solve [frame]|intros ?]
         | match goal with
           | |- closes_up (if ?b then _ else _) => destruct b
           end
         | apply closes_up_preserves; solve [frame] ].
Qed.

End Released.

(** ** How a computation can end *)

Section Returns.
Context {A : Type} (Q : A -> Prop) (E : exn -> Prop).

Lemma returns_anything (m : M A) : returns anything anything m.
Proof. intros w. by destruct (m w) as [[] ?]. Qed.

Lemma returns_ret a : Q a -> returns Q E (ret a).
Proof. by intros Ha w. Qed.

Lemma returns_raise e : E e -> returns Q E (raise e).
Proof. by intros He w. Qed.

Lemma returns_bind {B} (m : M B) (k : B -> M A) :
  returns anything E m -> (forall b, returns Q E (k b)) -> returns Q E (bind m k).
Proof.
  intros Hm Hk w. unfold bind. specialize (Hm w).
  destruct (m w) as [[b|e] w1]; simpl in *; [apply Hk | done].
Qed.

Lemma returns_try_except (m : M A) h :
  returns Q anything m -> (forall msg, returns Q not_mysql (h msg)) ->
  returns Q not_mysql (try_except m h).
Proof.
  intros Hm Hh w. unfold try_except. specialize (Hm w).
  destruct (m w) as [[a|[]] w1]; simpl in *; try done. apply Hh.
Qed.

Lemma returns_try_finally (m : M A) c :
  returns Q E m -> returns anything E c -> returns Q E (try_finally m c).
Proof.
  intros Hm Hc w. unfold try_finally. specialize (Hm w).
  destruct (m w) as [r w1]. specialize (Hc w1).
  by destruct (c w1) as [[] w2]; simpl in *.
Qed.

End Returns.

Lemma returns_py_get v k : returns anything not_mysql (py_get v k).
Proof. intros w. by destruct v. Qed.

Lemma returns_get_session : returns anything not_mysql get_session.
Proof. done. Qed.

Lemma returns_create_connection : returns anything not_mysql create_connection.
Proof. intros w. unfold create_connection. by destruct (reachable w). Qed.

Lemma returns_rollback c : returns anything not_mysql (rollback c).
Proof. done. Qed.

Lemma returns_release c : returns anything not_mysql (release c).
Proof.
  intros w. unfold release, bind, is_connected. simpl.
  by destruct (conns w !! c) as [[[] ?]|].
Qed.

Lemma failure_ok_or_failure message status : ok_or_failure (failure message status).
Proof. right. by exists message, status. Qed.

Lemma jsonify_ok_or_failure d : ok_or_failure (jsonify d 200).
Proof. by left. Qed.

#[global] Hint Resolve returns_py_get returns_get_session returns_create_connection
  returns_rollback returns_release failure_ok_or_failure jsonify_ok_or_failure : frame.

(** The work inside [try] returns a success or a failure, whatever it
    raises. *)
Ltac inside_try :=
  repeat first
    [ apply returns_ret; solve [auto with frame]
    | apply returns_bind; [apply returns_anything | intros ?]
    | match goal with
      | |- returns _ _ (match ?x with _ => _ end) => destruct x
      end ].

Ltac guarded :=
  repeat first
    [ apply returns_ret; solve [auto with frame]
    | apply returns_bind; [solve [auto with frame] | intros ?]
    | apply returns_try_finally; [|solve [auto with frame]]
    | apply returns_try_except; [solve [inside_try] | intros ?]
    | match goal with
      | |- returns _ _ (match ?x with _ => _ end) => destruct x
      end ].

Section Guard.
Context `{Collation}.

Lemma teacher_required_run (f : handler) req w :
  is_teacher (session w) = true -> teacher_required f req w = f req w.
Proof. intros Ht. unfold teacher_required, bind, get_session. by rewrite Ht. Qed.

Lemma teacher_required_deny (f : handler) req w :
  is_teacher (session w) = false -> String.prefix "/api/" (path req) = true ->
  teacher_required f req w = (Ret (failure "Authentication required" 401), w).
Proof. intros Ht Hp. unfold teacher_required, bind, get_session. by rewrite Ht, Hp. Qed.

Lemma returns_teacher_required (f : handler) req :
  String.prefix "/api/" (path req) = true ->
  returns ok_or_failure not_mysql (f req) ->
  returns ok_or_failure not_mysql (teacher_required f req).
Proof.
  intros Hp Hf. unfold teacher_required. rewrite Hp.
  apply returns_bind; [auto with frame|]. intros s.
  destruct (negb (is_teacher s)); [|done].
  apply returns_ret. auto with frame.
Qed.

Lemma returns_get_class_students_body req :
  returns ok_or_failure not_mysql (get_class_students_body req).
Proof. unfold get_class_students_body. guarded. Qed.

Lemma returns_mark_attendance_body req :
  returns ok_or_failure not_mysql (mark_attendance_body req).
Proof. unfold mark_attendance_body. guarded. Qed.

Lemma returns_view_attendance_body req :
  returns ok_or_failure not_mysql (view_attendance_body req).
Proof. unfold view_attendance_body. guarded. Qed.

End Guard.

(** ** The session guard on the API routes *)

Section Api.
Context `{Collation}.

(** C3, as the code has it: on every route under /api/teacher/ that
    [teacher_required] wraps, which is every one but /api/teacher/session,
    a request without a teacher session is answered 401 with the message
    "Authentication required", no data, and the world untouched;
    /api/teacher/session answers such a request 200 with
    [{logged_in: false}]. *)
Theorem api_guard e req w :
  path req = rule e ->
  String.prefix "/api/teacher/" (rule e) = true ->
  is_teacher (session w) = false ->
  (e <> ep_teacher_session ->
     view_function e req w = (Ret (failure "Authentication required" 401), w)
     /\ has_data (failure "Authentication required" 401) = false)
  /\ (e = ep_teacher_session ->
        view_function e req w = (Ret (jsonify [("logged_in", PBool false)] 200), w)).
Proof.
  intros Hp Hpre Ht. split.
  - intros Hne. split; [|done].
    assert (Hapi : String.prefix "/api/" (path req) = true).
    { rewrite Hp. by destruct e. }
    destruct e; try done; simpl; by apply teacher_required_deny.
  - intros ->. simpl. unfold teacher_session, bind, get_session. simpl.
    unfold is_teacher in Ht. unfold session_get.
    destruct (session w !! "user_type") as [v|]; simpl; [|done].
    by rewrite Ht.
Qed.



(** C10: the mark_attendance handler answers a request whose
    attendance_data is the empty list with 400 "Missing required data." and
    leaves the world as it was: no connection, no statement. The route
    gives the handler's answer to every logged-in teacher. *)
Theorem empty_attendance_data_rejected req w d :
  json req = PDict d ->
  assoc "attendance_data" d = Some (PList []) ->
  mark_attendance_body req w = (Ret (failure "Missing required data." 400), w)
  /\ (is_teacher (session w) = true ->
      mark_attendance req w = mark_attendance_body req w).
Proof.
  intros Hj Had. split; [|apply teacher_required_run].
  unfold mark_attendance_body. rewrite Hj. unfold py_get, bind, ret.
  rewrite Had. simpl.
  by destruct (truthy (default PNone (assoc "schedule_id" d))),
              (truthy (default PNone (assoc "date" d))).
Qed.

End Api.

(** ** Running a handler on a reachable, well-behaved server *)

Lemma bind_ret {A B} (a : A) (k : A -> M B) w : bind (ret a) k w = k a w.
Proof. done. Qed.

Lemma try_except_ret {A} (m : M A) h w a w' :
  m w = (Ret a, w') -> try_except m h w = (Ret a, w').
Proof. intros E. unfold try_except. by rewrite E. Qed.

Lemma try_except_catch {A} (m : M A) h w msg w' :
  m w = (Raise (MySQLError msg), w') -> try_except m h w = h msg w'.
Proof. intros E. unfold try_except. by rewrite E. Qed.

Lemma try_finally_run {A} (m : M A) c w r w' w'' :
  m w = (r, w') -> c w' = (Ret tt, w'') -> try_finally m c w = (r, w'').
Proof. intros E1 E2. unfold try_finally. by rewrite E1, E2. Qed.

Lemma lookup_opened w fs :
  conns (set_faults (opened w) fs) !! length (conns w)
  = Some {| connected := true; work := committed w |}.
Proof. simpl. by apply list_lookup_middle. Qed.

Lemma select_opened {A} (q : database -> A) n w fs :
  first_fault (S n) fs = None ->
  execute_select (length (conns w)) q (set_faults (opened w) fs)
  = (Ret (q (committed w)), set_faults (opened w) (tail fs)).
Proof.
  intros Hf.
  by rewrite (execute_select_run q n _ _ _ (lookup_opened w fs) eq_refl Hf).
Qed.

Lemma release_opened w fs :
  release (length (conns w)) (set_faults (opened w) fs)
  = (Ret tt, closed_at (length (conns w)) (set_faults (opened w) fs)).
Proof. by rewrite (release_run _ _ _ (lookup_opened w fs) eq_refl). Qed.

Lemma param_PStr s : param (PStr s) = ret (SStr s).
Proof. done. Qed.

Lemma truthy_PStr s : s <> "" -> truthy (PStr s) = true.
Proof. intros Hs. simpl. by apply negb_true_iff, String.eqb_neq. Qed.

Section Roster.
Context `{Collation}.

Lemma select_batch_none sid d :
  (forall sch, sch ∈ Schedules d -> sql_eqb (s_schedule_id sch) sid = false) ->
  select_batch sid d = [].
Proof.
  intros Hno. unfold select_batch.
  induction (Schedules d) as [|x l IH]; [done|]. simpl.
  rewrite (Hno x) by constructor. apply IH.
  intros sch Hin. apply Hno. by constructor.
Qed.

Lemma get_class_students_not_found req w s :
  args_get req "schedule_id" = PStr s -> s <> "" ->
  reachable w = true -> first_fault 1 (faults w) = None ->
  select_batch (SStr s) (committed w) = [] ->
  get_class_students_body req w
  = (Ret (failure "Schedule not found." 404),
     closed_at (length (conns w)) (set_faults (opened w) (tail (faults w)))).
Proof.
  intros Harg Hs Hr Hf Hno. unfold get_class_students_body.
  rewrite Harg, (truthy_PStr s Hs). change (negb true) with false. cbv iota.
  rewrite (bind_run _ _ _ _ _ (create_connection_run w Hr)). fold (opened w).
  eapply try_finally_run; [eapply try_except_ret | apply release_opened].
  rewrite param_PStr, bind_ret.
  change (opened w) with (set_faults (opened w) (faults w)).
  rewrite (bind_run _ _ _ _ _ (select_opened _ 0 w _ Hf)).
  by rewrite Hno.
Qed.

Lemma get_class_students_found req w s batch :
  args_get req "schedule_id" = PStr s -> s <> "" ->
  reachable w = true -> first_fault 2 (faults w) = None ->
  head (select_batch (SStr s) (committed w)) = Some batch ->
  get_class_students_body req w
  = (Ret (jsonify [("success", PBool true);
                   ("data", PList (map student_item
                                       (select_students batch (committed w))))] 200),
     closed_at (length (conns w))
               (set_faults (opened w) (tail (tail (faults w))))).
Proof.
  intros Harg Hs Hr Hf Hb. unfold get_class_students_body.
  rewrite Harg, (truthy_PStr s Hs). change (negb true) with false. cbv iota.
  rewrite (bind_run _ _ _ _ _ (create_connection_run w Hr)). fold (opened w).
  eapply try_finally_run; [eapply try_except_ret | apply release_opened].
  rewrite param_PStr, bind_ret.
  change (opened w) with (set_faults (opened w) (faults w)).
  rewrite (bind_run _ _ _ _ _ (select_opened _ 1 w _ Hf)).
  rewrite Hb. cbv iota.
  by rewrite (bind_run _ _ _ _ _ (select_opened _ 0 w _ (first_fault_tail _ _ Hf))).
Qed.

End Roster.

Lemma args_get_Some req k s : assoc k (args req) = Some s -> args_get req k = PStr s.
Proof. unfold args_get. by intros ->. Qed.

Lemma args_get_None req k : assoc k (args req) = None -> args_get req k = PNone.
Proof. unfold args_get. by intros ->. Qed.

Lemma Sorted_weaken {A} (R1 R2 : relation A) l :
  (forall a b, R1 a b -> R2 a b) -> Sorted R1 l -> Sorted R2 l.
Proof.
  intros HR. induction 1 as [|a l Hs IH Hd]; constructor; [done|].
  destruct Hd; constructor; auto.
Qed.

Section RosterClaims.
Context `{Collation}.

Lemma select_batch_reclass g sid w :
  select_batch sid (committed (reclass g w)) = select_batch sid (committed w).
Proof.
  unfold select_batch. simpl.
  induction (Schedules (committed w)) as [|x l IH]; [done|]. simpl.
  destruct (sql_eqb (s_schedule_id x) sid); simpl; by rewrite IH.
Qed.

Lemma select_batch_head sid d sch :
  head (List.filter (fun x => sql_eqb (s_schedule_id x) sid) (Schedules d)) = Some sch ->
  head (select_batch sid d) = Some (s_batch sch).
Proof. unfold select_batch. by destruct (List.filter _ _); intros [= ->]. Qed.

Lemma by_name_total :
  (forall a b, sql_leb a b = true \/ sql_leb b a = true) ->
  Total (by_key (fun st : student_row => [st_name st])).
Proof.
  intros Htot a b. unfold by_key. simpl.
  destruct (Htot (st_name a) (st_name b)) as [E|E]; [left|right]; rewrite E;
    by case_match.
Qed.

Lemma select_students_sorted batch d :
  (forall a b, sql_leb a b = true \/ sql_leb b a = true) ->
  Sorted (fun a b => sql_leb (st_name a) (st_name b) = true) (select_students batch d).
Proof.
  intros Htot. unfold select_students, order_by.
  eapply Sorted_weaken; [|apply (Sorted_merge_sort _ (Total0 := by_name_total Htot))].
  intros a b. unfold by_key. simpl. by destruct (sql_leb (st_name a) (st_name b)).
Qed.

Lemma select_students_perm batch d :
  select_students batch d
  ≡ₚ List.filter (fun st => sql_eqb (st_batch st) batch) (Students d).
Proof. apply merge_sort_Permutation. Qed.

(** C5: the class_students handler answers 400 when the request has no
    schedule_id, and 404 when its schedule_id is one that the lookup finds
    in no schedule row; neither answer carries data, and the stored data
    stay as they were. The route gives the handler's answer to every
    logged-in teacher. *)
Theorem class_students_errors req w :
  (assoc "schedule_id" (args req) = None ->
     exists resp, get_class_students_body req w = (Ret resp, w)
                  /\ resp = failure "Schedule ID is required." 400
                  /\ code resp = 400 /\ has_data resp = false)
  /\ (forall s, assoc "schedule_id" (args req) = Some s -> s <> "" ->
        reachable w = true -> first_fault 1 (faults w) = None ->
        (forall sch, sch ∈ Schedules (committed w) ->
                     sql_eqb (s_schedule_id sch) (SStr s) = false) ->
        exists resp w', get_class_students_body req w = (Ret resp, w')
                        /\ resp = failure "Schedule not found." 404
                        /\ code resp = 404 /\ has_data resp = false
                        /\ committed w' = committed w)
  /\ (is_teacher (session w) = true ->
      get_class_students req w = get_class_students_body req w).
Proof.
  split; [|split].
  - intros Ha. eexists. split; [|done].
    unfold get_class_students_body. by rewrite (args_get_None _ _ Ha).
  - intros s Ha Hs Hr Hf Hno.
    exists (failure "Schedule not found." 404),
           (closed_at (length (conns w)) (set_faults (opened w) (tail (faults w)))).
    split; [|done].
    rewrite (get_class_students_not_found req w s); auto using args_get_Some.
    by apply select_batch_none.
  - apply teacher_required_run.
Qed.

(** C6: for a schedule id that the lookup finds, the class_students
    handler answers with the students whose batch equals the batch of that
    schedule, all of them and no others, in the order of their names; with
    other class ids in the schedule table the answer is the same. The
    route gives the handler's answer to every logged-in teacher. *)
Theorem class_students_roster req w s sch :
  (forall a b, sql_leb a b = true \/ sql_leb b a = true) ->
  assoc "schedule_id" (args req) = Some s -> s <> "" ->
  reachable w = true -> first_fault 2 (faults w) = None ->
  head (List.filter (fun x => sql_eqb (s_schedule_id x) (SStr s))
                    (Schedules (committed w))) = Some sch ->
  exists roster w',
    get_class_students_body req w
    = (Ret (jsonify [("success", PBool true);
                     ("data", PList (map student_item roster))] 200), w')
    /\ roster ≡ₚ List.filter (fun st => sql_eqb (st_batch st) (s_batch sch))
                             (Students (committed w))
    /\ Sorted (fun a b => sql_leb (st_name a) (st_name b) = true) roster
    /\ (forall g, (get_class_students_body req (reclass g w)).1
                  = (get_class_students_body req w).1)
    /\ (is_teacher (session w) = true ->
        get_class_students req w = get_class_students_body req w).
Proof.
  intros Htot Ha Hs Hr Hf Hsch.
  pose proof (select_batch_head _ _ _ Hsch) as Hb.
  exists (select_students (s_batch sch) (committed w)),
         (closed_at (length (conns w))
                    (set_faults (opened w) (tail (tail (faults w))))).
  split; [|split; [apply select_students_perm|split; [by apply select_students_sorted|split]]].
  - apply (get_class_students_found req w s); auto using args_get_Some.
  - intros g.
    rewrite (get_class_students_found req w s (s_batch sch));
      auto using args_get_Some.
    rewrite (get_class_students_found req (reclass g w) s (s_batch sch));
      auto using args_get_Some.
    by rewrite select_batch_reclass.
  - apply teacher_required_run.
Qed.

End RosterClaims.

(** ** The attendance view *)

Lemma attendance_dict_acc rows (m : gmap sqlval attendance_row) k :
  (forall a, a ∈ rows -> a_student_id a <> k) ->
  foldl (fun m rec => <[a_student_id rec := rec]> m) m rows !! k = m !! k.
Proof.
  revert m. induction rows as [|x l IH]; intros m Hno; [done|]. simpl.
  rewrite IH.
  - apply lookup_insert_ne, Hno. constructor.
  - intros a Ha. apply Hno. by constructor.
Qed.

Lemma attendance_dict_absent rows k :
  (forall a, a ∈ rows -> a_student_id a <> k) -> attendance_dict rows !! k = None.
Proof. intros Hno. unfold attendance_dict. by rewrite attendance_dict_acc. Qed.

Lemma attendance_dict_present_acc rows (m : gmap sqlval attendance_row) a :
  a ∈ rows ->
  (forall a', a' ∈ rows -> a_student_id a' = a_student_id a -> a' = a) ->
  foldl (fun m rec => <[a_student_id rec := rec]> m) m rows !! a_student_id a = Some a.
Proof.
  revert m. induction rows as [|x l IH]; intros m Hin Huniq.
  - by apply elem_of_nil in Hin.
  - simpl. destruct (decide (a ∈ l)) as [Hl|Hl].
    + apply IH; [done|]. intros a' Ha'. apply Huniq. by constructor.
    + apply elem_of_cons in Hin as [->|]; [|done].
      rewrite attendance_dict_acc; [apply lookup_insert_eq|].
      intros a' Ha' Hk. apply Hl.
      assert (Hx : a' ∈ x :: l) by (by constructor).
      by rewrite <- (Huniq a' Hx Hk).
Qed.

Lemma attendance_dict_lookup_acc rows (m : gmap sqlval attendance_row) k a :
  foldl (fun m rec => <[a_student_id rec := rec]> m) m rows !! k = Some a ->
  (a ∈ rows /\ a_student_id a = k) \/ m !! k = Some a.
Proof.
  revert m. induction rows as [|x l IH]; intros m Hl; [by right|].
  simpl in Hl. destruct (IH _ Hl) as [[Hin Hk]|Hm].
  - left. split; [by constructor|done].
  - destruct (decide (a_student_id x = k)) as [Hx|Hx].
    + subst k. rewrite lookup_insert_eq in Hm. left. split; [|congruence].
      simplify_eq. constructor.
    + rewrite lookup_insert_ne in Hm by done. by right.
Qed.

Lemma attendance_dict_is_Some_acc rows (m : gmap sqlval attendance_row) k :
  (exists a, a ∈ rows /\ a_student_id a = k) \/ is_Some (m !! k) ->
  is_Some (foldl (fun m rec => <[a_student_id rec := rec]> m) m rows !! k).
Proof.
  revert m. induction rows as [|x l IH]; intros m Hk; simpl.
  - destruct Hk as [(a & Hin & _)|Hm]; [by apply elem_of_nil in Hin | done].
  - apply IH. destruct (decide (a_student_id x = k)) as [Hx|Hx].
    + right. rewrite <- Hx, lookup_insert_eq. by eexists.
    + destruct Hk as [(a & Hin & Ha)|Hm].
      * left. exists a. split; [|done].
        apply elem_of_cons in Hin as [->|]; done.
      * right. by rewrite lookup_insert_ne.
Qed.

Lemma attendance_dict_some rows k :
  (exists a, a ∈ rows /\ a_student_id a = k) ->
  exists a, a ∈ rows /\ a_student_id a = k /\ attendance_dict rows !! k = Some a.
Proof.
  intros Hk. unfold attendance_dict.
  destruct (attendance_dict_is_Some_acc rows ∅ k (or_introl Hk)) as [a Ha].
  exists a. destruct (attendance_dict_lookup_acc _ _ _ _ Ha) as [[Hin Hid]|Hm]; [done|].
  by rewrite lookup_empty in Hm.
Qed.

Lemma attendance_dict_present rows a :
  a ∈ rows ->
  (forall a', a' ∈ rows -> a_student_id a' = a_student_id a -> a' = a) ->
  attendance_dict rows !! a_student_id a = Some a.
Proof. apply attendance_dict_present_acc. Qed.

Section View.
Context `{Collation}.

Lemma view_attendance_found req w s dt batch :
  assoc "schedule_id" (args req) = Some s -> s <> "" ->
  assoc "date" (args req) = Some dt -> dt <> "" ->
  reachable w = true -> first_fault 3 (faults w) = None ->
  head (select_batch (SStr s) (committed w)) = Some batch ->
  view_attendance_body req w
  = (Ret (jsonify
            [("success", PBool true);
             ("data", PList (map (merged_item
                                    (attendance_dict
                                       (select_attendance (SStr s) (SStr dt) (committed w))))
                                 (select_students batch (committed w))))] 200),
     closed_at (length (conns w))
               (set_faults (opened w) (tail (tail (tail (faults w)))))).
Proof.
  intros Ha Hs Hd Hdt Hr Hf Hb. unfold view_attendance_body.
  rewrite (args_get_Some _ _ _ Ha), (args_get_Some _ _ _ Hd).
  rewrite (truthy_PStr s Hs), (truthy_PStr dt Hdt).
  change (negb true || negb true) with false. cbv iota.
  rewrite (bind_run _ _ _ _ _ (create_connection_run w Hr)). fold (opened w).
  eapply try_finally_run; [eapply try_except_ret | apply release_opened].
  rewrite param_PStr, bind_ret.
  change (opened w) with (set_faults (opened w) (faults w)).
  rewrite (bind_run _ _ _ _ _ (select_opened _ 2 w _ Hf)).
  rewrite Hb. cbv iota.
  apply first_fault_tail in Hf.
  rewrite (bind_run _ _ _ _ _ (select_opened _ 1 w _ Hf)).
  rewrite param_PStr, bind_ret.
  apply first_fault_tail in Hf.
  by rewrite (bind_run _ _ _ _ _ (select_opened _ 0 w _ Hf)).
Qed.

(** C1: for a schedule id the lookup finds and a date, the attendance
    view answers with a list that has one record per student of the
    schedule's batch, whatever the attendance table holds. The route gives
    the handler's answer to every logged-in teacher. *)
Theorem view_attendance_count req w s dt sch :
  assoc "schedule_id" (args req) = Some s -> s <> "" ->
  assoc "date" (args req) = Some dt -> dt <> "" ->
  reachable w = true -> first_fault 3 (faults w) = None ->
  head (List.filter (fun x => sql_eqb (s_schedule_id x) (SStr s))
                    (Schedules (committed w))) = Some sch ->
  exists resp w' records,
    view_attendance_body req w = (Ret resp, w')
    /\ code resp = 200
    /\ data_of resp = Some records
    /\ length records
       = length (List.filter (fun st => sql_eqb (st_batch st) (s_batch sch))
                             (Students (committed w)))
    /\ (is_teacher (session w) = true ->
        view_attendance req w = view_attendance_body req w).
Proof.
  intros Ha Hs Hd Hdt Hr Hf Hsch.
  pose proof (select_batch_head _ _ _ Hsch) as Hb.
  pose proof (view_attendance_found req w s dt (s_batch sch) Ha Hs Hd Hdt Hr Hf Hb)
    as Hrun.
  eexists _, _, _. split; [exact Hrun|]. split; [done|]. split; [done|]. split.
  - by rewrite length_map, (Permutation_length (select_students_perm _ _)).
  - apply teacher_required_run.
Qed.


End View.

(** ** What changes only with a 200 answer *)

Section Quiet.
Context {X : Type} (f : world -> X).

Lemma quiet_preserves m : preserves f m -> quiet f m.
Proof. intros Hm w. rewrite Hm. destruct (m w).1; auto. Qed.

Lemma quiet_bind {A} (m : M A) k :
  preserves f m -> (forall a, quiet f (k a)) -> quiet f (bind m k).
Proof.
  intros Hm Hk w. unfold bind. specialize (Hm w).
  destruct (m w) as [[a|e] w1]; simpl in *; [|done].
  specialize (Hk a w1). rewrite <- Hm. by destruct (k a w1) as [[] ?].
Qed.

Lemma quiet_ok m : returns (fun r => code r = 200) (fun _ => False) m -> quiet f m.
Proof. intros Hm w. specialize (Hm w). destruct (m w).1; [auto|done]. Qed.

Lemma quiet_try_except m h :
  quiet f m -> (forall msg, preserves f (h msg)) -> quiet f (try_except m h).
Proof.
  intros Hm Hh w. unfold try_except. specialize (Hm w).
  destruct (m w) as [[a|[]] w1]; simpl in *; try done.
  specialize (Hh msg w1). rewrite Hh, Hm. destruct (h msg w1).1; auto.
Qed.

Lemma quiet_try_finally m c :
  quiet f m -> preserves f c -> returns anything (fun _ => False) c ->
  quiet f (try_finally m c).
Proof.
  intros Hm Hc Hr w. unfold try_finally. specialize (Hm w).
  destruct (m w) as [r w1]. specialize (Hc w1). specialize (Hr w1).
  destruct (c w1) as [[[]|e] w2]; simpl in *; [|done].
  rewrite Hc. by destruct r.
Qed.

End Quiet.

Lemma release_never_raises c : returns anything (fun _ => False) (release c).
Proof.
  intros w. unfold release, bind, is_connected. simpl.
  by destruct (conns w !! c) as [[[] ?]|].
Qed.

Lemma session_release c : preserves session (release c).
Proof. unfold release. frame. Qed.

Lemma committed_release c : preserves committed (release c).
Proof. unfold release. frame. Qed.

(** ** Login *)

Section Login.
Context `{Collation}.

Lemma select_teacher_none e p d :
  (forall t, t ∈ Teachers d -> sql_eqb (t_email t) e && sql_eqb (t_password t) p = false) ->
  select_teacher e p d = [].
Proof.
  intros Hno. unfold select_teacher.
  induction (Teachers d) as [|x l IH]; [done|]. simpl.
  rewrite (Hno x) by constructor. apply IH.
  intros t Hin. apply Hno. by constructor.
Qed.

Lemma param_run v x w : to_mysql v = Some x -> param v w = (Ret x, w).
Proof. unfold param. by intros ->. Qed.

(** Whenever the login does not answer 200, the session is as before. *)
Lemma login_failure_keeps_session req : quiet session (teacher_login_action req).
Proof.
  unfold teacher_login_action.
  apply quiet_bind; [auto with frame|]. intros email.
  apply quiet_bind; [auto with frame|]. intros password.
  case_match; [apply quiet_preserves; auto with frame|].
  apply quiet_bind; [auto with frame|]. intros [c|];
    [|apply quiet_preserves; auto with frame].
  apply quiet_try_finally;
    [|apply session_release|apply release_never_raises].
  apply quiet_bind; [auto with frame|]. intros e.
  apply quiet_bind; [auto with frame|]. intros p.
  apply quiet_bind; [auto with frame|]. intros rows.
  destruct (head rows) as [teacher|]; [|apply quiet_preserves; auto with frame].
  apply quiet_ok. intros w. done.
Qed.

(** C7: a login whose email and password reach the lookup and match no
    teacher row is answered 401 and leaves the session as it was; when
    they match, the session afterwards names the first matching teacher:
    user_type is 'teacher', user_id and user_name are the row's. And
    however a login ends, the session is as before unless the answer is
    200. *)
Theorem login_session req w d email password e p :
  json req = PDict d ->
  assoc "email" d = Some email -> assoc "password" d = Some password ->
  truthy email = true -> truthy password = true ->
  to_mysql email = Some e -> to_mysql password = Some p ->
  reachable w = true -> first_fault 1 (faults w) = None ->
  ((forall t, t ∈ Teachers (committed w) ->
              sql_eqb (t_email t) e && sql_eqb (t_password t) p = false) ->
   exists w', teacher_login_action req w = (Ret (failure "Invalid credentials." 401), w')
              /\ session w' = session w)
  /\ (forall t, head (select_teacher e p (committed w)) = Some t ->
      exists resp w',
        teacher_login_action req w = (Ret resp, w')
        /\ code resp = 200
        /\ session w' = <["user_name" := to_python (t_name t)]>
                          (<["user_id" := to_python (t_teacher_id t)]>
                             (<["user_type" := PStr "teacher"]> (session w)))
        /\ is_teacher (session w') = true)
  /\ match (teacher_login_action req w).1 with
     | Ret resp => code resp = 200 \/ session (teacher_login_action req w).2 = session w
     | Raise _ => session (teacher_login_action req w).2 = session w
     end.
Proof.
  intros Hj He Hp Hte Htp Hme Hmp Hr Hf.
  assert (Hstart : forall r w',
    try_finally
      (e0 <- param email ;; p0 <- param password ;;
       rows <- execute_select (length (conns w)) (select_teacher e0 p0) ;;
       match head rows with
       | Some teacher =>
           session_setitem "user_type" (PStr "teacher") ;;;
           session_setitem "user_id" (to_python (t_teacher_id teacher)) ;;;
           session_setitem "user_name" (to_python (t_name teacher)) ;;;
           ret (jsonify [("success", PBool true);
                         ("teacher", PDict [("name", to_python (t_name teacher));
                                            ("id", to_python (t_teacher_id teacher))])]
                        200)
       | None => ret (failure "Invalid credentials." 401)
       end) (release (length (conns w))) (opened w) = (r, w') ->
    teacher_login_action req w = (r, w')).
  { intros r w' <-. unfold teacher_login_action. rewrite Hj. unfold py_get.
    rewrite He, Hp. simpl default. rewrite !bind_ret, Hte, Htp.
    change (negb true || negb true) with false. cbv iota.
    rewrite (bind_run _ _ _ _ _ (create_connection_run w Hr)). reflexivity. }
  assert (Hlook : forall k,
    ((e0 <- param email ;; p0 <- param password ;;
      rows <- execute_select (length (conns w)) (select_teacher e0 p0) ;; k rows)
       (opened w) : result response * world)
    = k (select_teacher e p (committed w)) (set_faults (opened w) (tail (faults w)))).
  { intros k.
    rewrite (bind_run _ _ _ _ _ (param_run _ _ _ Hme)).
    rewrite (bind_run _ _ _ _ _ (param_run _ _ _ Hmp)).
    change (opened w) with (set_faults (opened w) (faults w)).
    by rewrite (bind_run _ _ _ _ _ (select_opened _ 0 w _ Hf)). }
  split; [|split; [|apply login_failure_keeps_session]].
  - intros Hno. eexists. split.
    + apply Hstart. eapply try_finally_run; [|apply release_opened].
      rewrite (Hlook (fun rows => match head rows with Some _ => _ | None => _ end)).
      by rewrite (select_teacher_none _ _ _ Hno).
    + done.
  - intros t Hhead. eexists _, _. split.
    + apply Hstart. eapply try_finally_run.
      * rewrite (Hlook (fun rows => match head rows with Some _ => _ | None => _ end)).
        rewrite Hhead. reflexivity.
      * eapply release_run; [simpl; by apply list_lookup_middle | reflexivity].
    + simpl. split; [done|]. split; [done|]. unfold is_teacher.
      rewrite lookup_insert_ne by done. rewrite lookup_insert_ne by done.
      by rewrite lookup_insert_eq.
Qed.

End Login.

(** ** Marking attendance *)

Section Mark.
Context `{Collation}.

Lemma committed_insert_attendance c r : preserves committed (insert_attendance c r).
Proof. destruct r as [[[? ?] ?] ?]. unfold insert_attendance. frame. Qed.

Lemma committed_executemany c rs : preserves committed (executemany c rs).
Proof.
  induction rs as [|r rs IH]; simpl; [apply preserves_ret|].
  apply preserves_bind; [apply committed_insert_attendance|]. intros n.
  apply preserves_bind; [done|]. intros m. apply preserves_ret.
Qed.

Lemma committed_build_records sid dt ad : preserves committed (build_records sid dt ad).
Proof. unfold build_records. frame. Qed.

Lemma commit_raise c w e w' :
  commit c w = (Raise e, w') -> committed w' = committed w.
Proof.
  unfold commit, statement. intros E.
  repeat case_match; by simplify_eq/=.
Qed.

(** The work inside [try]: a database error leaves the committed data as
    they were, and an answer is a 200. *)
Lemma quiet_write_batch c records :
  quiet committed
    (rowcount <- executemany c records ;;
     commit c ;;;
     ret (jsonify [("success", PBool true);
                   ("message", PStr ("Attendance for " +:+ pretty rowcount
                                     +:+ " students saved."))] 200)).
Proof.
  apply quiet_bind; [apply committed_executemany|]. intros n w.
  unfold bind. destruct (commit c w) as [[[]|e] w1] eqn:E; simpl; [by left|].
  by apply commit_raise in E.
Qed.

(** The committed data change only when mark_attendance answers 200. *)
Lemma mark_attendance_all_or_nothing req : quiet committed (mark_attendance_body req).
Proof.
  unfold mark_attendance_body.
  apply quiet_bind; [auto with frame|]. intros schedule_id.
  apply quiet_bind; [auto with frame|]. intros date.
  apply quiet_bind; [auto with frame|]. intros attendance_data.
  case_match; [apply quiet_preserves; auto with frame|].
  apply quiet_bind; [auto with frame|]. intros [c|];
    [|apply quiet_preserves; auto with frame].
  apply quiet_try_finally;
    [|apply committed_release|apply release_never_raises].
  apply quiet_try_except; [|intros msg; frame].
  apply quiet_bind; [apply committed_build_records|]. intros records.
  apply quiet_write_batch.
Qed.


End Mark.

(** ** The school of the spec's example, run *)

Lemma plain_leb_total a b : plain_leb a b = true \/ plain_leb b a = true.
Proof.
  destruct a as [|x|s|s], b as [|y|t|t]; simpl; auto;
    try (destruct (Z.leb_spec x y); [by left | right; apply Z.leb_le; lia]);
    apply String.leb_total.
Qed.

Ltac run := first [ discriminate | by vm_compute | done ].

Lemma view_attendance_count_witness :
  exists resp w' records,
    @view_attendance plain attendance_request monday = (Ret resp, w')
    /\ code resp = 200
    /\ data_of resp = Some records
    /\ length records = 2%nat.
Proof.
  destruct (@view_attendance_count plain attendance_request monday "12" "2024-03-04"
              schedule12) as (resp & w' & records & Hrun & Hcode & Hdata & Hlen & Hroute);
    try run.
  exists resp, w', records. rewrite (Hroute eq_refl). by repeat split.
Defined.


Lemma api_guard_witness :
  @view_function plain ep_view_attendance attendance_request anonymous
  = (Ret (failure "Authentication required" 401), anonymous)
  /\ @view_function plain ep_teacher_session session_request anonymous
     = (Ret (jsonify [("logged_in", PBool false)] 200), anonymous).
Proof.
  split.
  - apply (@api_guard plain ep_view_attendance attendance_request anonymous); run.
  - apply (@api_guard plain ep_teacher_session session_request anonymous); run.
Defined.

(** C3 as stated fails: /api/teacher/session, called without a teacher
    session, answers 200 and not 401. *)
Lemma session_route_answers_anonymous :
  String.prefix "/api/teacher/" (rule ep_teacher_session) = true
  /\ is_teacher (session anonymous) = false
  /\ exists resp, (@view_function plain ep_teacher_session session_request anonymous).1
                  = Ret resp
                  /\ code resp = 200 /\ code resp <> 401.
Proof. split; [done|]. split; [done|]. by eexists. Qed.


Lemma class_students_errors_witness :
  (exists resp, @get_class_students plain roster_request_no_id monday = (Ret resp, monday)
                /\ code resp = 400 /\ has_data resp = false)
  /\ (exists resp w', @get_class_students plain roster_request_unknown monday = (Ret resp, w')
                      /\ code resp = 404 /\ has_data resp = false
                      /\ committed w' = committed monday).
Proof.
  split.
  - destruct (@class_students_errors plain roster_request_no_id monday)
      as (Habsent & _ & Hroute).
    destruct (Habsent eq_refl) as (resp & Hrun & _ & Hcode & Hdata).
    exists resp. by rewrite (Hroute eq_refl).
  - destruct (@class_students_errors plain roster_request_unknown monday)
      as (_ & Hunknown & Hroute).
    destruct (Hunknown "99") as (resp & w' & Hrun & _ & Hcode & Hdata & Hsame);
      try run.
    { intros sch Hin. apply list_elem_of_singleton in Hin. by subst sch. }
    exists resp, w'. by rewrite (Hroute eq_refl).
Defined.

Lemma class_students_roster_witness :
  exists roster w',
    @get_class_students plain roster_request monday
    = (Ret (jsonify [("success", PBool true);
                     ("data", PList (map student_item roster))] 200), w')
    /\ roster ≡ₚ [bob; alice]
    /\ Sorted (fun a b => plain_leb (st_name a) (st_name b) = true) roster.
Proof.
  destruct (@class_students_roster plain roster_request monday "12" schedule12)
    as (roster & w' & Hrun & Hperm & Hsorted & _ & Hroute); try run.
  { apply plain_leb_total. }
  exists roster, w'. by rewrite (Hroute eq_refl).
Defined.

Lemma login_session_witness :
  (exists w', @teacher_login_action plain (login_request "guess") anonymous
              = (Ret (failure "Invalid credentials." 401), w')
              /\ session w' = session anonymous)
  /\ (exists resp w',
        @teacher_login_action plain (login_request "s3cret") anonymous = (Ret resp, w')
        /\ code resp = 200
        /\ session w' = <["user_name" := to_python (t_name asha)]>
                          (<["user_id" := to_python (t_teacher_id asha)]>
                             (<["user_type" := PStr "teacher"]> (session anonymous)))
        /\ is_teacher (session w') = true).
Proof.
  split.
  - eapply (proj1 (@login_session plain (login_request "guess") anonymous _
                     (PStr "asha@school.test") (PStr "guess") _ _
                     eq_refl eq_refl eq_refl eq_refl eq_refl eq_refl eq_refl eq_refl eq_refl)).
    intros t Hin. apply list_elem_of_singleton in Hin. by subst t.
  - eapply (proj1 (proj2 (@login_session plain (login_request "s3cret") anonymous _
                     (PStr "asha@school.test") (PStr "s3cret") _ _
                     eq_refl eq_refl eq_refl eq_refl eq_refl eq_refl eq_refl eq_refl eq_refl))
                  asha).
    reflexivity.
Defined.



(** A handler without an [except] clause does not answer a database error
    either: the login lets it through. *)
Example login_database_error_escapes :
  (@teacher_login_action plain (login_request "s3cret")
     (world_of ∅ true [Some "Server has gone away"])).1
  = Raise (MySQLError "Server has gone away").
Proof. by vm_compute. Qed.

Lemma empty_attendance_data_rejected_witness :
  @mark_attendance plain (mark_request (PList [])) monday
  = (Ret (failure "Missing required data." 400), monday).
Proof.
  edestruct (@empty_attendance_data_rejected plain (mark_request (PList [])) monday)
    as [Hrun Hroute]; [reflexivity|reflexivity|].
  by rewrite (Hroute eq_refl).
Defined.

(** The connection of a served request is there and closed afterwards. *)
Example connection_released_run :
  flags (@view_function plain ep_view_attendance attendance_request monday).2 = [false]
  /\ flags (@view_function plain ep_mark_attendance (mark_request mark_without_student_id)
              monday).2 = [false]
  /\ flags (@view_function plain ep_mark_attendance (mark_request two_marks) stormy).2
     = [false].
Proof. by vm_compute. Qed.

(** The spec's example: marking Alice present, then viewing, shows Alice
    present and Bob absent. *)
Example mark_then_view :
  let w1 := (@mark_attendance plain
               (mark_request (PList [PDict [("student_id", PInt 1);
                                            ("status", PStr "present")]])) monday).2 in
  option_map (map (fun r => match r with
                            | PDict d => (assoc "student_name" d, assoc "status" d)
                            | _ => (None, None)
                            end))
    (match (@view_attendance plain
              (get "/api/teacher/attendance" [("schedule_id", "12"); ("date", "2024-03-05")])
              w1).1 with
     | Ret resp => data_of resp
     | Raise _ => None
     end)
  = Some [(Some (PStr "Alice"), Some (PStr "present"));
          (Some (PStr "Bob"), Some (PStr "absent"))].
Proof. by vm_compute. Qed.

(** A rejected statement is answered 500 with the server's message. *)
Example database_error_answers :
  (@get_class_students plain roster_request
     (world_of teacher_cookie true [Some "Table is marked as crashed"])).1
  = Ret (failure "Database Error: Table is marked as crashed" 500)
  /\ (@view_attendance plain attendance_request
        (world_of teacher_cookie true [None; None; Some "Query interrupted"])).1
     = Ret (failure "Database error: Query interrupted" 500).
Proof. by vm_compute. Qed.

(** * Further properties of the handlers *)

#[global] Hint Resolve session_release committed_release : frame.

(** ** What the routes never change *)

Section ReadOnly.
Context `{Collation}.

Lemma preserves_teacher_required {X} (f : world -> X) (h : handler) req :
  preserves f (h req) -> preserves f (teacher_required h req).
Proof. intros Hh. unfold teacher_required. frame. Qed.

(** Only mark_attendance can change the stored data: on every other route,
    whatever the request and however the call ends, the committed data are
    what they were. *)
Theorem only_mark_attendance_writes e req w :
  e <> ep_mark_attendance ->
  committed (view_function e req w).2 = committed w.
Proof.
  intros He. revert w. change (preserves committed (view_function e req)).
  destruct e; try done; simpl;
    try apply preserves_teacher_required;
    unfold index, teacher_login_page, teacher_login_action, teacher_logout,
      teacher_session, get_teacher_schedule_body, get_today_classes_body,
      get_all_teacher_classes_body, get_class_students_body, view_attendance_body;
    frame.
Qed.

Lemma session_executemany c rs : preserves session (executemany c rs).
Proof.
  induction rs as [|[[[? ?] ?] ?] rs IH]; simpl; [apply preserves_ret|].
  unfold insert_attendance. frame.
Qed.

(** Only login and logout can change the session. *)
Theorem only_login_and_logout_touch_session e req w :
  e <> ep_teacher_login_action -> e <> ep_teacher_logout ->
  session (view_function e req w).2 = session w.
Proof.
  intros He1 He2. revert w. change (preserves session (view_function e req)).
  destruct e; try done; simpl;
    try apply preserves_teacher_required;
    unfold index, teacher_login_page, teacher_session, get_teacher_schedule_body,
      get_today_classes_body, get_all_teacher_classes_body, get_class_students_body,
      mark_attendance_body, view_attendance_body, build_records;
    pose proof session_executemany;
    frame.
Qed.

End ReadOnly.

(** ** An unreachable server *)

Section Unreachable.
Context `{Collation}.

Lemma create_connection_down w :
  reachable w = false -> create_connection w = (Ret None, w).
Proof. unfold create_connection. by intros ->. Qed.

Lemma teacher_required_cases (h : handler) req w :
  teacher_required h req w = h req w
  \/ teacher_required h req w = (Ret (failure "Authentication required" 401), w)
  \/ teacher_required h req w = (Ret (redirect url_for_teacher_login_page), w).
Proof.
  unfold teacher_required, bind, get_session. simpl.
  destruct (is_teacher (session w)); simpl; [by left|].
  destruct (String.prefix "/api/" (path req)); auto.
Qed.

(** When the server cannot be reached, a route that needs the database
    leaves the world exactly as it was and never answers 200 nor hands out
    data; to a logged-in teacher the three schedule routes answer 500
    "Database error". *)
Theorem unreachable_database e req w :
  reachable w = false -> uses_database e = true ->
  (view_function e req w).2 = w
  /\ (forall resp, (view_function e req w).1 = Ret resp ->
                   code resp <> 200 /\ has_data resp = false)
  /\ (is_teacher (session w) = true ->
      e = ep_get_teacher_schedule \/ e = ep_get_today_classes
      \/ e = ep_get_all_teacher_classes ->
      view_function e req w = (Ret (failure "Database error" 500), w)).
Proof.
  intros Hr He.
  assert (Hbody : forall (h : handler),
    ((h req w).2 = w /\ forall resp, (h req w).1 = Ret resp ->
                                     code resp <> 200 /\ has_data resp = false) ->
    (teacher_required h req w).2 = w
    /\ forall resp, (teacher_required h req w).1 = Ret resp ->
                    code resp <> 200 /\ has_data resp = false).
  { intros h Hh. destruct (teacher_required_cases h req w) as [->|[->| ->]]; [done|..];
      (split; [done|]); intros resp [= <-]; done. }
  assert (Hdown : forall (k : option handle -> M response),
    (conn <- create_connection ;; k conn) w = k None w).
  { intros k. by rewrite (bind_run _ _ _ _ _ (create_connection_down w Hr)). }
  assert (Hquiet : forall (r : result response),
    (match r with Ret resp => code resp <> 200 /\ has_data resp = false | Raise _ => True end) ->
    (r, w).2 = w /\ forall resp, (r, w).1 = Ret resp ->
                                 code resp <> 200 /\ has_data resp = false).
  { intros r Hrr. split; [done|]. simpl. by intros resp ->. }
  assert (Hall : (view_function e req w).2 = w
                 /\ forall resp, (view_function e req w).1 = Ret resp ->
                                 code resp <> 200 /\ has_data resp = false).
  { destruct e; try done; simpl; try apply Hbody;
      unfold teacher_login_action, get_teacher_schedule_body, get_today_classes_body,
        get_all_teacher_classes_body, get_class_students_body, mark_attendance_body,
        view_attendance_body;
      unfold py_get; destruct (json req);
      rewrite ?bind_ret; try (by apply Hquiet);
      try (rewrite (bind_run get_session _ w _ _ eq_refl));
      try (rewrite (bind_run get_today _ w _ _ eq_refl));
      repeat case_match; rewrite ?Hdown; by apply Hquiet. }
  split; [apply Hall|split; [apply Hall|]].
  intros Ht [->|[->| ->]]; simpl;
    unfold get_teacher_schedule, get_today_classes, get_all_teacher_classes;
    rewrite teacher_required_run by done;
    unfold get_teacher_schedule_body, get_today_classes_body, get_all_teacher_classes_body;
    rewrite (bind_run get_session _ w _ _ eq_refl);
    try (rewrite (bind_run get_today _ w _ _ eq_refl));
    by rewrite Hdown.
Qed.

End Unreachable.

(** ** Login, session and logout together *)

Section Sessions.
Context `{Collation}.

Lemma teacher_login_action_run req w d email password e p :
  json req = PDict d ->
  assoc "email" d = Some email -> assoc "password" d = Some password ->
  truthy email = true -> truthy password = true ->
  to_mysql email = Some e -> to_mysql password = Some p ->
  reachable w = true -> first_fault 1 (faults w) = None ->
  teacher_login_action req w
  = match head (select_teacher e p (committed w)) with
    | Some teacher =>
        (Ret (jsonify [("success", PBool true);
                       ("teacher", PDict [("name", to_python (t_name teacher));
                                          ("id", to_python (t_teacher_id teacher))])]
                      200),
         closed_at (length (conns w))
           (set_session (set_faults (opened w) (tail (faults w)))
                        (logged_in teacher (session w))))
    | None =>
        (Ret (failure "Invalid credentials." 401),
         closed_at (length (conns w)) (set_faults (opened w) (tail (faults w))))
    end.
Proof.
  intros Hj He Hp Hte Htp Hme Hmp Hr Hf.
  unfold teacher_login_action. rewrite Hj. unfold py_get.
  rewrite He, Hp. simpl default. rewrite !bind_ret, Hte, Htp.
  change (negb true || negb true) with false. cbv iota.
  rewrite (bind_run _ _ _ _ _ (create_connection_run w Hr)). fold (opened w).
  destruct (head (select_teacher e p (committed w))) as [teacher|] eqn:Hhead.
  - eapply try_finally_run.
    + rewrite (bind_run _ _ _ _ _ (param_run _ _ _ Hme)).
      rewrite (bind_run _ _ _ _ _ (param_run _ _ _ Hmp)).
      change (opened w) with (set_faults (opened w) (faults w)).
      rewrite (bind_run _ _ _ _ _ (select_opened _ 0 w _ Hf)).
      rewrite Hhead. reflexivity.
    + eapply release_run; [simpl; by apply list_lookup_middle | reflexivity].
  - eapply try_finally_run; [|apply release_opened].
    rewrite (bind_run _ _ _ _ _ (param_run _ _ _ Hme)).
    rewrite (bind_run _ _ _ _ _ (param_run _ _ _ Hmp)).
    change (opened w) with (set_faults (opened w) (faults w)).
    rewrite (bind_run _ _ _ _ _ (select_opened _ 0 w _ Hf)).
    by rewrite Hhead.
Qed.

Lemma teacher_session_run req w :
  teacher_session req w
  = (Ret (if is_teacher (session w)
          then jsonify [("logged_in", PBool true);
                        ("teacher", PDict [("id", session_get (session w) "user_id");
                                           ("name", session_get (session w) "user_name")])]
                       200
          else jsonify [("logged_in", PBool false)] 200), w).
Proof.
  unfold teacher_session, bind, get_session, is_teacher, session_get. simpl.
  destruct (session w !! "user_type") as [v|]; simpl; [|done].
  by destruct (py_eq_str v "teacher").
Qed.

(** After a successful login, /api/teacher/session reports the teacher the
    login answered with: logged_in is true, id and name are those of the
    first matching teacher row, whoever was in the session before. *)
Theorem login_then_session req w d email password e p teacher :
  json req = PDict d ->
  assoc "email" d = Some email -> assoc "password" d = Some password ->
  truthy email = true -> truthy password = true ->
  to_mysql email = Some e -> to_mysql password = Some p ->
  reachable w = true -> first_fault 1 (faults w) = None ->
  head (select_teacher e p (committed w)) = Some teacher ->
  exists w',
    teacher_login_action req w
    = (Ret (jsonify [("success", PBool true);
                     ("teacher", PDict [("name", to_python (t_name teacher));
                                        ("id", to_python (t_teacher_id teacher))])] 200), w')
    /\ forall req',
         teacher_session req' w'
         = (Ret (jsonify [("logged_in", PBool true);
                          ("teacher", PDict [("id", to_python (t_teacher_id teacher));
                                             ("name", to_python (t_name teacher))])] 200), w').
Proof.
  intros Hj He Hp Hte Htp Hme Hmp Hr Hf Hhead.
  eexists. split.
  - rewrite (teacher_login_action_run req w d email password e p) by done.
    rewrite Hhead. reflexivity.
  - intros req'. rewrite teacher_session_run. simpl session. unfold logged_in.
    unfold is_teacher, session_get.
    rewrite !(lookup_insert_ne _ "user_name" "user_type") by done.
    rewrite !(lookup_insert_ne _ "user_id" "user_type") by done.
    rewrite !(lookup_insert_ne _ "user_name" "user_id") by done.
    by rewrite !lookup_insert_eq.
Qed.

(** Logout always answers 200, with or without a session, and empties the
    session while leaving data and connections alone; afterwards
    /api/teacher/session reports logged_in false and every other route
    under /api/ answers 401. *)
Theorem logout_ends_the_session req w :
  teacher_logout req w = (Ret (jsonify [("success", PBool true)] 200), set_session w ∅)
  /\ (forall req', teacher_session req' (set_session w ∅)
                   = (Ret (jsonify [("logged_in", PBool false)] 200), set_session w ∅))
  /\ (forall e req', path req' = rule e ->
        String.prefix "/api/" (rule e) = true -> e <> ep_teacher_session ->
        view_function e req' (set_session w ∅)
        = (Ret (failure "Authentication required" 401), set_session w ∅)).
Proof.
  split; [done|]. split.
  - intros req'. by rewrite teacher_session_run.
  - intros e req' Hp Hapi He.
    assert (Hreq : String.prefix "/api/" (path req') = true) by (by rewrite Hp).
    destruct e; try done; simpl; by apply teacher_required_deny.
Qed.

End Sessions.

(** ** Requests that are turned away before the database is asked *)

Section Validation.
Context `{Collation}.

(** A body that is not a JSON object (null, a list, a number) makes login
    and mark_attendance raise AttributeError at [data.get], before any
    connection is made: the world is untouched. *)
Theorem body_must_be_an_object req w :
  (forall d, json req <> PDict d) ->
  teacher_login_action req w = (Raise AttributeError, w)
  /\ mark_attendance_body req w = (Raise AttributeError, w).
Proof.
  intros Hj. unfold teacher_login_action, mark_attendance_body, py_get.
  destruct (json req); try done. by destruct (Hj d).
Qed.

(** A login whose email or password is missing, null or empty is answered
    400 without any connection, lookup or session change. *)
Theorem login_requires_credentials req w d :
  json req = PDict d ->
  truthy (default PNone (assoc "email" d)) = false
  \/ truthy (default PNone (assoc "password" d)) = false ->
  teacher_login_action req w = (Ret (failure "Email and password are required." 400), w).
Proof.
  intros Hj Hmiss. unfold teacher_login_action, py_get. rewrite Hj, !bind_ret.
  by destruct Hmiss as [-> | ->]; rewrite ?orb_true_r.
Qed.

(** mark_attendance answers 400 "Missing required data." whenever
    schedule_id, date or attendance_data is missing or false for Python
    (null, 0, the empty string, an empty list or object), and then makes no
    connection and no change. *)
Theorem mark_attendance_requires_all_fields req w d :
  json req = PDict d ->
  truthy (default PNone (assoc "schedule_id" d)) = false
  \/ truthy (default PNone (assoc "date" d)) = false
  \/ truthy (default PNone (assoc "attendance_data" d)) = false ->
  mark_attendance_body req w = (Ret (failure "Missing required data." 400), w).
Proof.
  intros Hj Hmiss. unfold mark_attendance_body, py_get. rewrite Hj, !bind_ret.
  cbn [forallb].
  by destruct Hmiss as [-> | [-> | ->]]; rewrite ?andb_false_r.
Qed.

Lemma flags_closed_at w w1 cn :
  conns w1 = (conns w ++ [cn])%list ->
  flags (closed_at (length (conns w)) w1) = (flags w ++ [false])%list.
Proof.
  intros Hc. unfold flags, closed_at. simpl. rewrite Hc.
  replace (length (conns w)) with (length (conns w) + 0)%nat at 1 by lia.
  rewrite insert_app_r. simpl. by rewrite map_app.
Qed.

Lemma view_attendance_not_found req w s dt :
  assoc "schedule_id" (args req) = Some s -> s <> "" ->
  assoc "date" (args req) = Some dt -> dt <> "" ->
  reachable w = true -> first_fault 1 (faults w) = None ->
  select_batch (SStr s) (committed w) = [] ->
  view_attendance_body req w
  = (Ret (failure "Schedule not found." 404),
     closed_at (length (conns w)) (set_faults (opened w) (tail (faults w)))).
Proof.
  intros Ha Hs Hd Hdt Hr Hf Hno. unfold view_attendance_body.
  rewrite (args_get_Some _ _ _ Ha), (args_get_Some _ _ _ Hd).
  rewrite (truthy_PStr s Hs), (truthy_PStr dt Hdt).
  change (negb true || negb true) with false. cbv iota.
  rewrite (bind_run _ _ _ _ _ (create_connection_run w Hr)). fold (opened w).
  eapply try_finally_run; [eapply try_except_ret | apply release_opened].
  rewrite param_PStr, bind_ret.
  change (opened w) with (set_faults (opened w) (faults w)).
  rewrite (bind_run _ _ _ _ _ (select_opened _ 0 w _ Hf)).
  by rewrite Hno.
Qed.

(** The attendance view answers 400, without touching the world, when
    schedule_id or date is absent or empty, and 404 when the schedule_id is
    found in no schedule row; the 404 costs one statement, and neither
    answer carries data. *)
Theorem view_attendance_errors req w :
  ((assoc "schedule_id" (args req) = None \/ assoc "schedule_id" (args req) = Some ""
    \/ assoc "date" (args req) = None \/ assoc "date" (args req) = Some "") ->
   view_attendance_body req w
   = (Ret (failure "Schedule ID and date are required." 400), w))
  /\ (forall s dt,
        assoc "schedule_id" (args req) = Some s -> s <> "" ->
        assoc "date" (args req) = Some dt -> dt <> "" ->
        reachable w = true -> first_fault 1 (faults w) = None ->
        (forall sch, sch ∈ Schedules (committed w) ->
                     sql_eqb (s_schedule_id sch) (SStr s) = false) ->
        exists w', view_attendance_body req w
                   = (Ret (failure "Schedule not found." 404), w')
                   /\ committed w' = committed w
                   /\ faults w' = tail (faults w)
                   /\ flags w' = (flags w ++ [false])%list)
  /\ has_data (failure "Schedule ID and date are required." 400) = false
  /\ has_data (failure "Schedule not found." 404) = false.
Proof.
  split; [|split; [|done]].
  - intros Hmiss. unfold view_attendance_body, args_get.
    destruct Hmiss as [-> | [-> | [-> | ->]]]; simpl; try done;
      by rewrite orb_true_r.
  - intros s dt Ha Hs Hd Hdt Hr Hf Hno. eexists. split.
    + apply (view_attendance_not_found req w s dt); try done.
      by apply select_batch_none.
    + split; [done|]. split; [done|]. by eapply flags_closed_at.
Qed.

End Validation.

(** ** The order of the attendance view *)

Section ViewOrder.
Context `{Collation}.

(** The attendance view lists the students of the schedule's batch, each
    once, in the order of their names: record [i] carries the id, name and
    email of the [i]-th student of that roster. *)
Theorem view_attendance_follows_roster req w s dt sch :
  (forall a b, sql_leb a b = true \/ sql_leb b a = true) ->
  is_teacher (session w) = true ->
  assoc "schedule_id" (args req) = Some s -> s <> "" ->
  assoc "date" (args req) = Some dt -> dt <> "" ->
  reachable w = true -> first_fault 3 (faults w) = None ->
  head (List.filter (fun x => sql_eqb (s_schedule_id x) (SStr s))
                    (Schedules (committed w))) = Some sch ->
  exists roster records w',
    view_attendance req w
    = (Ret (jsonify [("success", PBool true); ("data", PList records)] 200), w')
    /\ roster ≡ₚ List.filter (fun st => sql_eqb (st_batch st) (s_batch sch))
                             (Students (committed w))
    /\ Sorted (fun a b => sql_leb (st_name a) (st_name b) = true) roster
    /\ map (field "student_id") records
       = map (fun st => Some (to_python (st_student_id st))) roster
    /\ map (field "student_name") records
       = map (fun st => Some (to_python (st_name st))) roster
    /\ map (field "student_email") records
       = map (fun st => Some (to_python (st_email st))) roster.
Proof.
  intros Htot Ht Ha Hs Hd Hdt Hr Hf Hsch.
  pose proof (select_batch_head _ _ _ Hsch) as Hb.
  exists (select_students (s_batch sch) (committed w)). eexists _, _. split.
  - unfold view_attendance. rewrite teacher_required_run by done.
    apply (view_attendance_found req w s dt (s_batch sch)); done.
  - split; [apply select_students_perm|].
    split; [by apply select_students_sorted|].
    by rewrite !map_map.
Qed.

End ViewOrder.

(** ** The schedule routes *)

Section Schedule.
Context `{Collation}.

Lemma elem_of_joined s c sub d :
  (s, c, sub) ∈ joined d
  <-> s ∈ Schedules d /\ c ∈ Classes d /\ sub ∈ Subjects d
      /\ sql_eqb (s_class_id s) (c_class_id c) = true
      /\ sql_eqb (s_subject_id s) (sub_subject_id sub) = true.
Proof.
  unfold joined. rewrite !list_elem_of_In, in_flat_map. split.
  - intros (s' & Hs & Hin). apply in_flat_map in Hin as (c' & Hc & Hin).
    apply in_map_iff in Hin as (sub' & [= -> -> ->] & Hsub).
    apply filter_In in Hc as [Hc Hce]. apply filter_In in Hsub as [Hsub Hsube].
    done.
  - intros (Hs & Hc & Hsub & Hce & Hsube).
    exists s. split; [done|]. apply in_flat_map. exists c. split.
    + by apply filter_In.
    + apply in_map_iff. exists sub. split; [done|]. by apply filter_In.
Qed.

Lemma elem_of_select_schedule s c sub tid d :
  (s, c, sub) ∈ select_schedule tid d
  <-> (s, c, sub) ∈ joined d /\ sql_eqb (s_teacher_id s) tid = true.
Proof. unfold select_schedule. by rewrite list_elem_of_In, filter_In, <- list_elem_of_In. Qed.

Lemma lex_leb_total ks1 ks2 :
  (forall a b, sql_leb a b = true \/ sql_leb b a = true) ->
  lex_leb ks1 ks2 = true \/ lex_leb ks2 ks1 = true.
Proof.
  intros Htot. revert ks2. induction ks1 as [|a r1 IH]; intros [|b r2]; simpl; auto.
  destruct (sql_leb a b) eqn:Hab, (sql_leb b a) eqn:Hba; auto.
  destruct (Htot a b); congruence.
Qed.

Lemma by_key_total {A} (key : A -> list sqlval) :
  (forall a b, sql_leb a b = true \/ sql_leb b a = true) -> Total (by_key key).
Proof. intros Htot a b. apply lex_leb_total, Htot. Qed.

Lemma order_by_sorted {A} (key : A -> list sqlval) l :
  (forall a b, sql_leb a b = true \/ sql_leb b a = true) ->
  Sorted (by_key key) (order_by key l).
Proof. intros Htot. apply (Sorted_merge_sort _ (Total0 := by_key_total key Htot)). Qed.

Lemma order_by_perm {A} (key : A -> list sqlval) l : order_by key l ≡ₚ l.
Proof. apply merge_sort_Permutation. Qed.

Lemma get_teacher_schedule_run req w tid :
  is_teacher (session w) = true ->
  to_mysql (session_get (session w) "user_id") = Some tid ->
  reachable w = true -> first_fault 1 (faults w) = None ->
  get_teacher_schedule req w
  = (Ret (jsonify [("success", PBool true);
                   ("data", PList (map schedule_item
                                       (select_schedule tid (committed w))))] 200),
     closed_at (length (conns w)) (set_faults (opened w) (tail (faults w)))).
Proof.
  intros Ht Hid Hr Hf. unfold get_teacher_schedule.
  rewrite teacher_required_run by done. unfold get_teacher_schedule_body.
  rewrite (bind_run get_session _ w _ _ eq_refl).
  rewrite (bind_run _ _ _ _ _ (create_connection_run w Hr)). fold (opened w).
  eapply try_finally_run; [|apply release_opened].
  rewrite (bind_run _ _ _ _ _ (param_run _ _ _ Hid)).
  change (opened w) with (set_faults (opened w) (faults w)).
  by rewrite (bind_run _ _ _ _ _ (select_opened _ 0 w _ Hf)).
Qed.

Lemma get_today_classes_run req w tid :
  is_teacher (session w) = true ->
  to_mysql (session_get (session w) "user_id") = Some tid ->
  reachable w = true -> first_fault 1 (faults w) = None ->
  get_today_classes req w
  = (Ret (jsonify [("success", PBool true);
                   ("data", PList (map today_item
                                       (select_today tid (SStr (today w))
                                                     (committed w))))] 200),
     closed_at (length (conns w)) (set_faults (opened w) (tail (faults w)))).
Proof.
  intros Ht Hid Hr Hf. unfold get_today_classes.
  rewrite teacher_required_run by done. unfold get_today_classes_body.
  rewrite (bind_run get_session _ w _ _ eq_refl).
  rewrite (bind_run get_today _ w _ _ eq_refl).
  rewrite (bind_run _ _ _ _ _ (create_connection_run w Hr)). fold (opened w).
  eapply try_finally_run; [|apply release_opened].
  rewrite (bind_run _ _ _ _ _ (param_run _ _ _ Hid)).
  rewrite param_PStr, bind_ret.
  change (opened w) with (set_faults (opened w) (faults w)).
  by rewrite (bind_run _ _ _ _ _ (select_opened _ 0 w _ Hf)).
Qed.

Lemma get_all_teacher_classes_run req w tid :
  is_teacher (session w) = true ->
  to_mysql (session_get (session w) "user_id") = Some tid ->
  reachable w = true -> first_fault 1 (faults w) = None ->
  get_all_teacher_classes req w
  = (Ret (jsonify [("success", PBool true);
                   ("data", PList (map class_item
                                       (select_all_classes tid (committed w))))] 200),
     closed_at (length (conns w)) (set_faults (opened w) (tail (faults w)))).
Proof.
  intros Ht Hid Hr Hf. unfold get_all_teacher_classes.
  rewrite teacher_required_run by done. unfold get_all_teacher_classes_body.
  rewrite (bind_run get_session _ w _ _ eq_refl).
  rewrite (bind_run _ _ _ _ _ (create_connection_run w Hr)). fold (opened w).
  eapply try_finally_run; [|apply release_opened].
  rewrite (bind_run _ _ _ _ _ (param_run _ _ _ Hid)).
  change (opened w) with (set_faults (opened w) (faults w)).
  by rewrite (bind_run _ _ _ _ _ (select_opened _ 0 w _ Hf)).
Qed.



(** The classes of a logged-in teacher are listed without repetition, in
    the order of class name, then subject name, then batch, and they are
    the (schedule_id, class_name, subject_name, batch) of the teacher's
    joined schedule rows. *)
Theorem all_classes_rows req w tid :
  (forall a b, sql_leb a b = true \/ sql_leb b a = true) ->
  is_teacher (session w) = true ->
  to_mysql (session_get (session w) "user_id") = Some tid ->
  reachable w = true -> first_fault 1 (faults w) = None ->
  exists rows w',
    get_all_teacher_classes req w
    = (Ret (jsonify [("success", PBool true);
                     ("data", PList (map class_item rows))] 200), w')
    /\ committed w' = committed w
    /\ NoDup rows
    /\ Sorted (by_key (fun r : sqlval * sqlval * sqlval * sqlval => [r.1.1.2; r.1.2; r.2]))
              rows
    /\ forall r,
         r ∈ rows
         <-> exists s c sub,
               (s, c, sub) ∈ joined (committed w)
               /\ sql_eqb (s_teacher_id s) tid = true
               /\ r = (s_schedule_id s, c_class_name c, sub_subject_name sub, s_batch s).
Proof.
  intros Htot Ht Hid Hr Hf. eexists _, _. split.
  - by apply get_all_teacher_classes_run.
  - split; [done|]. unfold select_all_classes. split; [|split].
    + rewrite (order_by_perm _ _). apply NoDup_remove_dups.
    + by apply order_by_sorted.
    + intros r. rewrite (order_by_perm _ _), elem_of_remove_dups, list_elem_of_fmap.
      split.
      * intros ([[s c] sub] & -> & Hin). exists s, c, sub.
        by apply elem_of_select_schedule in Hin as [? ?].
      * intros (s & c & sub & Hj & Hteach & ->). exists (s, c, sub).
        split; [done|]. by apply elem_of_select_schedule.
Qed.

End Schedule.

(** ** A batch that is written *)

Lemma pure_ret {A} (a : A) : pure (ret a).
Proof. done. Qed.

Lemma pure_raise {A} e : pure (@raise A e).
Proof. done. Qed.

Lemma pure_bind {A B} (m : M A) (k : A -> M B) :
  pure m -> (forall a, pure (k a)) -> pure (bind m k).
Proof.
  intros Hm Hk w w0. unfold bind. rewrite (Hm w w0).
  destruct (m w0) as [[a|e] w1]; simpl; [|done].
  rewrite (Hk a w w0), (Hk a w1 w0). done.
Qed.

Lemma pure_mapM {A B} (f : A -> M B) l : (forall a, pure (f a)) -> pure (mapM f l).
Proof.
  intros Hf. induction l as [|a l IH]; simpl; [apply pure_ret|].
  apply pure_bind; [done|]. intros b.
  apply pure_bind; [done|]. intros bs. apply pure_ret.
Qed.

Lemma pure_getitem v k : pure (getitem v k).
Proof.
  destruct v; simpl; try apply pure_raise.
  destruct (assoc k d); [apply pure_ret | apply pure_raise].
Qed.

Lemma pure_py_iter v : pure (py_iter v).
Proof. destruct v; simpl; first [apply pure_ret | apply pure_raise]. Qed.

(** The comprehension of mark_attendance neither reads nor changes the
    world. *)
Lemma build_records_pure schedule_id date attendance_data :
  pure (build_records schedule_id date attendance_data).
Proof.
  unfold build_records. apply pure_bind; [apply pure_py_iter|]. intros items.
  apply pure_mapM. intros item.
  apply pure_bind; [apply pure_getitem|]. intros a.
  apply pure_bind; [apply pure_getitem|]. intros b. apply pure_ret.
Qed.

Section Written.
Context `{Collation}.

Lemma set_attendance_id d : set_attendance d (attendance d) = d.
Proof. by destruct d. Qed.

Lemma insert_attendance_run c cn record row w :
  row_of (now w) record = Some row ->
  conns w !! c = Some cn -> connected cn = true ->
  first_fault 1 (faults w) = None ->
  insert_attendance c record w
  = (Ret (upsert row (attendance (work cn))).2,
     set_conns (set_faults w (tail (faults w)))
       (<[c := {| connected := true;
                  work := set_attendance (work cn)
                            (upsert row (attendance (work cn))).1 |}]> (conns w))).
Proof.
  destruct record as [[[a b] x] y]. unfold row_of, insert_attendance. intros Hrow Hc Hon Hf.
  destruct (to_mysql a) as [p1|] eqn:E1; [|done].
  destruct (to_mysql b) as [p2|] eqn:E2; [|done].
  destruct (to_mysql x) as [p3|] eqn:E3; [|done].
  destruct (to_mysql y) as [p4|] eqn:E4; [|done].
  injection Hrow as <-.
  rewrite (bind_run _ _ _ _ _ (param_run _ _ _ E1)).
  rewrite (bind_run _ _ _ _ _ (param_run _ _ _ E2)).
  rewrite (bind_run _ _ _ _ _ (param_run _ _ _ E3)).
  rewrite (bind_run _ _ _ _ _ (param_run _ _ _ E4)).
  rewrite (bind_run get_now _ w _ _ eq_refl).
  unfold execute_update. rewrite Hc, Hon, (statement_run 0 w Hf).
  by destruct (upsert _ _).
Qed.

Lemma executemany_run c records : forall rows w cn,
  Forall2 (fun record row => row_of (now w) record = Some row) records rows ->
  conns w !! c = Some cn -> connected cn = true ->
  first_fault (length records) (faults w) = None ->
  exists w',
    executemany c records w = (Ret (upsert_all rows (attendance (work cn))).2, w')
    /\ conns w'
       = <[c := {| connected := true;
                   work := set_attendance (work cn)
                             (upsert_all rows (attendance (work cn))).1 |}]> (conns w)
    /\ faults w' = drop (length records) (faults w)
    /\ committed w' = committed w
    /\ session w' = session w.
Proof.
  induction records as [|record records IH]; intros rows w cn Hrows Hc Hon Hf.
  - apply Forall2_nil_inv_l in Hrows as ->. exists w. simpl. split; [done|].
    split; [|done]. rewrite set_attendance_id. symmetry. apply list_insert_id.
    destruct cn as [b d]; simpl in *. subst b. exact Hc.
  - apply Forall2_cons_inv_l in Hrows as (row & rows' & Hrow & Hrows & ->).
    simpl in Hf.
    assert (Hf1 : first_fault 1 (faults w) = None).
    { destruct (faults w) as [|[m|] fs]; done. }
    pose proof (insert_attendance_run c cn record row w Hrow Hc Hon Hf1) as Hins.
    set (w1 := set_conns _ _) in Hins.
    set (cn1 := {| connected := true;
                   work := set_attendance (work cn) (upsert row (attendance (work cn))).1 |}).
    assert (Hc1 : conns w1 !! c = Some cn1).
    { unfold w1. simpl. apply list_lookup_insert_eq. by eapply lookup_lt_Some. }
    destruct (IH rows' w1 cn1) as (w' & Hrun & Hconns & Hfaults & Hcomm & Hsess);
      [done|done|done|by apply first_fault_tail|].
    exists w'. simpl. rewrite (bind_run _ _ _ _ _ Hins), (bind_run _ _ _ _ _ Hrun).
    unfold ret. simpl in *.
    destruct (upsert row (attendance (work cn))) as [t1 n] eqn:E1. simpl in *.
    destruct (upsert_all rows' t1) as [t2 m] eqn:E2. simpl in *.
    split; [done|]. split; [|split].
    + rewrite Hconns. apply list_insert_insert_eq.
    + rewrite Hfaults. destruct (faults w); simpl; [by rewrite drop_nil|done].
    + by split.
Qed.


Lemma first_fault_split n k fs :
  first_fault (n + k) fs = None ->
  first_fault n fs = None /\ first_fault k (drop n fs) = None.
Proof.
  revert fs. induction n as [|n IH]; intros fs Hf; [done|].
  destruct fs as [|[m|] fs]; simpl in *; try done.
  - split; [done|]. by destruct k.
  - by apply IH.
Qed.

(** A batch whose records the server accepts is written whole: the answer
    is 200 with the affected-row count in its message, the committed
    attendance table is the old one after the upserts of all records in
    order, the other tables and the session are as before, and the
    connection is closed. *)
Theorem mark_attendance_saves req w d schedule_id date attendance_data records rows :
  is_teacher (session w) = true ->
  json req = PDict d ->
  assoc "schedule_id" d = Some schedule_id ->
  assoc "date" d = Some date ->
  assoc "attendance_data" d = Some attendance_data ->
  forallb truthy [schedule_id; date; attendance_data] = true ->
  reachable w = true ->
  (build_records schedule_id date attendance_data w).1 = Ret records ->
  Forall2 (fun record row => row_of (now w) record = Some row) records rows ->
  first_fault (S (length records)) (faults w) = None ->
  exists w',
    mark_attendance req w
    = (Ret (jsonify [("success", PBool true);
                     ("message",
                      PStr ("Attendance for "
                            +:+ pretty (upsert_all rows (attendance (committed w))).2
                            +:+ " students saved."))] 200), w')
    /\ committed w'
       = set_attendance (committed w) (upsert_all rows (attendance (committed w))).1
    /\ flags w' = (flags w ++ [false])%list
    /\ session w' = session w.
Proof.
  intros Ht Hj Hs Hd Ha Hall Hr Hb Hrows Hf.
  replace (S (length records)) with (length records + 1)%nat in Hf by lia.
  apply first_fault_split in Hf as [Hf Hfc].
  set (c := length (conns w)).
  set (cn := {| connected := true; work := committed w |}).
  destruct (executemany_run c records rows (opened w) cn) as
    (w2 & Hrun & Hconns & Hfaults & Hcomm & Hsess);
    [done | by apply list_lookup_middle | done | done |].
  simpl in Hrun, Hconns, Hfaults, Hcomm, Hsess.
  set (cn2 := {| connected := true;
                 work := set_attendance (committed w)
                           (upsert_all rows (attendance (committed w))).1 |}) in *.
  assert (Hlen : (c < length (conns w ++ [cn]))%nat).
  { rewrite length_app. simpl. unfold c. lia. }
  assert (Hc2 : conns w2 !! (c : handle) = Some cn2).
  { rewrite Hconns. by apply list_lookup_insert_eq. }
  set (w3 := set_committed (set_faults w2 (tail (faults w2))) (work cn2)).
  assert (Hcommit : commit c w2 = (Ret tt, w3)).
  { unfold commit. rewrite Hc2. simpl connected. cbv iota.
    rewrite (statement_run 0 w2); [done|]. by rewrite Hfaults. }
  exists (closed_at c w3). split; [|split; [done|split]].
  - unfold mark_attendance. rewrite teacher_required_run by done.
    unfold mark_attendance_body. rewrite Hj. unfold py_get.
    rewrite Hs, Hd, Ha. simpl default. rewrite !bind_ret, Hall.
    change (negb true) with false. cbv iota.
    rewrite (bind_run _ _ _ _ _ (create_connection_run w Hr)). fold (opened w).
    eapply try_finally_run; [eapply try_except_ret|].
    + rewrite (bind_run _ _ (opened w) records (opened w)).
      * rewrite (bind_run _ _ _ _ _ Hrun), (bind_run _ _ _ _ _ Hcommit). reflexivity.
      * rewrite (build_records_pure _ _ _ (opened w) w). by rewrite Hb.
    + by apply (release_run c cn2 w3).
  - unfold flags, closed_at. simpl. rewrite Hconns.
    change (connected <$> <[c := {| connected := false; work := work cn2 |}]>
              (<[c := cn2]> (conns w ++ [cn])%list)
            = (map connected (conns w) ++ [false])%list).
    rewrite list_insert_insert_eq.
    replace c with (length (conns w) + 0)%nat at 1 by (unfold c; lia).
    rewrite insert_app_r. simpl. by rewrite fmap_app.
  - done.
Qed.

Lemma try_except_pass {A} (m : M A) h w e w' :
  m w = (Raise e, w') -> not_mysql e -> try_except m h w = (Raise e, w').
Proof.
  intros E He. unfold try_except. rewrite E.
  destruct e; try done. by destruct (He msg).
Qed.

Lemma item_record_raise (schedule_id date item : pyval) e w :
  item_error item = Some e ->
  (student_id <- getitem item "student_id" ;;
   status <- getitem item "status" ;;
   ret (student_id, schedule_id, date, status)) w = (Raise e, w).
Proof.
  unfold item_error, getitem, bind. destruct item; try by intros [= <-].
  destruct (assoc "student_id" d); [|by intros [= <-]]. simpl.
  destruct (assoc "status" d); [done|by intros [= <-]].
Qed.

Lemma item_record_ok (schedule_id date item : pyval) w :
  item_error item = None ->
  exists record,
    (student_id <- getitem item "student_id" ;;
     status <- getitem item "status" ;;
     ret (student_id, schedule_id, date, status)) w = (Ret record, w).
Proof.
  unfold item_error, getitem, bind. destruct item; try done.
  destruct (assoc "student_id" d); [|done]. simpl.
  destruct (assoc "status" d); [|done]. by eexists.
Qed.

Lemma item_error_not_mysql item e : item_error item = Some e -> not_mysql e.
Proof.
  unfold item_error. destruct item; try (by intros [= <-] msg).
  destruct (assoc "student_id" d); [|by intros [= <-] msg].
  destruct (assoc "status" d); [done|by intros [= <-] msg].
Qed.

Lemma item_records_raise (schedule_id date : pyval) good bad rest e w :
  Forall (fun item => item_error item = None) good ->
  item_error bad = Some e ->
  mapM (fun item => student_id <- getitem item "student_id" ;;
                    status <- getitem item "status" ;;
                    ret (student_id, schedule_id, date, status))
       (good ++ bad :: rest)%list w = (Raise e, w).
Proof.
  intros Hgood Hbad. induction Hgood as [|item good Hitem Hgood IH]; simpl.
  - by rewrite (bind_raise _ _ _ _ _ (item_record_raise _ _ _ _ _ Hbad)).
  - destruct (item_record_ok schedule_id date item w Hitem) as [record Hrec].
    rewrite (bind_run _ _ _ _ _ Hrec). by rewrite (bind_raise _ _ _ _ _ IH).
Qed.

(** The first item of attendance_data that is not an object with both a
    student_id and a status ends mark_attendance with KeyError (named after
    the missing key) or TypeError: no statement is sent, nothing is written,
    and the connection is closed on the way out. *)
Theorem mark_attendance_item_error req w d schedule_id date attendance_data
    items good bad rest e :
  json req = PDict d ->
  assoc "schedule_id" d = Some schedule_id ->
  assoc "date" d = Some date ->
  assoc "attendance_data" d = Some attendance_data ->
  forallb truthy [schedule_id; date; attendance_data] = true ->
  reachable w = true ->
  (py_iter attendance_data w).1 = Ret items ->
  items = (good ++ bad :: rest)%list ->
  Forall (fun item => item_error item = None) good ->
  item_error bad = Some e ->
  exists w',
    mark_attendance_body req w = (Raise e, w')
    /\ committed w' = committed w
    /\ faults w' = faults w
    /\ flags w' = (flags w ++ [false])%list.
Proof.
  intros Hj Hs Hd Ha Hall Hr Hit -> Hgood Hbad.
  exists (closed_at (length (conns w)) (opened w)).
  split; [|split; [done|split; [done|by eapply flags_closed_at]]].
  unfold mark_attendance_body. rewrite Hj. unfold py_get.
  rewrite Hs, Hd, Ha. simpl default. rewrite !bind_ret, Hall.
  change (negb true) with false. cbv iota.
  rewrite (bind_run _ _ _ _ _ (create_connection_run w Hr)). fold (opened w).
  eapply try_finally_run;
    [eapply try_except_pass; [|by eapply item_error_not_mysql]
    |by apply (release_opened w (faults w))].
  apply bind_raise. unfold build_records.
  rewrite (bind_run (py_iter attendance_data) _ (opened w) (good ++ bad :: rest)%list
             (opened w)).
  - by apply item_records_raise.
  - rewrite (pure_py_iter _ (opened w) w). by rewrite Hit.
Qed.

End Written.

(** ** The upsert of mark_attendance *)

Section Upsert.
Context `{Collation}.

Lemma with_status_same x : with_status x (a_status x) = x.
Proof. by destruct x. Qed.

Lemma upsert_fresh r t :
  Forall (fun x => same_key r x = false) t -> upsert r t = ((t ++ [r])%list, 1).
Proof.
  induction 1 as [|x t Hx Ht IH]; [done|]. simpl. by rewrite Hx, IH.
Qed.

Lemma upsert_hit r pre x post :
  Forall (fun y => same_key r y = false) pre -> same_key r x = true ->
  upsert r (pre ++ x :: post)
  = if sql_eqb (a_status x) (a_status r)
    then ((pre ++ x :: post)%list, 0)
    else ((pre ++ with_status x (a_status r) :: post)%list, 2).
Proof.
  intros Hpre Hx. induction Hpre as [|y pre Hy Hpre IH]; simpl.
  - by rewrite Hx.
  - rewrite Hy, IH. by destruct (sql_eqb (a_status x) (a_status r)).
Qed.

Lemma upsert_cases r t :
  Forall (fun x => same_key r x = false) t
  \/ exists pre x post, t = (pre ++ x :: post)%list
                        /\ Forall (fun y => same_key r y = false) pre
                        /\ same_key r x = true.
Proof.
  induction t as [|x t IH]; [by left|].
  destruct (same_key r x) eqn:Hx.
  - right. by exists [], x, t.
  - destruct IH as [IH|(pre & x' & post & -> & Hpre & Hx')].
    + left. by constructor.
    + right. exists (x :: pre), x', post. split; [done|]. split; [|done].
      by constructor.
Qed.

(** Upserting the same record twice changes nothing the second time, as
    long as the server holds the record's key equal to itself (a key with a
    NULL column is not, and would be inserted again). *)
Theorem upsert_twice r t :
  same_key r r = true ->
  (upsert r (upsert r t).1).1 = (upsert r t).1.
Proof.
  intros Hrr. destruct (upsert_cases r t) as [Hfresh|(pre & x & post & -> & Hpre & Hx)].
  - rewrite (upsert_fresh r t Hfresh). simpl.
    replace (t ++ [r])%list with (t ++ r :: [])%list by done.
    rewrite (upsert_hit r t r [] Hfresh Hrr), with_status_same.
    by destruct (sql_eqb (a_status r) (a_status r)).
  - rewrite (upsert_hit r pre x post Hpre Hx).
    destruct (sql_eqb (a_status x) (a_status r)) eqn:Hst; simpl.
    + by rewrite (upsert_hit r pre x post Hpre Hx), Hst.
    + rewrite (upsert_hit r pre (with_status x (a_status r)) post Hpre Hx).
      simpl. by destruct (sql_eqb (a_status r) (a_status r)).
Qed.

(** After an upsert, the first row that has the record's key carries the
    record's status, or a status the server holds equal to it; the rows
    before it have other keys. *)
Theorem upsert_then_found r t :
  same_key r r = true ->
  exists pre x post,
    (upsert r t).1 = (pre ++ x :: post)%list
    /\ Forall (fun y => same_key r y = false) pre
    /\ same_key r x = true
    /\ (a_status x = a_status r \/ sql_eqb (a_status x) (a_status r) = true).
Proof.
  intros Hrr. destruct (upsert_cases r t) as [Hfresh|(pre & x & post & -> & Hpre & Hx)].
  - exists t, r, []. rewrite (upsert_fresh r t Hfresh). auto.
  - rewrite (upsert_hit r pre x post Hpre Hx).
    destruct (sql_eqb (a_status x) (a_status r)) eqn:Hst; simpl.
    + exists pre, x, post. auto.
    + exists pre, (with_status x (a_status r)), post. auto.
Qed.

Lemma forallb_upsert (P : attendance_row -> bool) r t :
  (forall x s, P (with_status x s) = P x) ->
  P r = true -> forallb P t = true -> forallb P (upsert r t).1 = true.
Proof.
  intros HP Hr. induction t as [|x t IH]; simpl; [by rewrite Hr|].
  intros [Hx Ht]%andb_true_iff.
  destruct (same_key r x).
  - destruct (sql_eqb (a_status x) (a_status r)); simpl.
    + by rewrite Hx, Ht.
    + by rewrite HP, Hx, Ht.
  - specialize (IH Ht). destruct (upsert r t) as [t' n]. simpl in *.
    by rewrite Hx, IH.
Qed.

Lemma upsert_unique r t :
  unique_keys t = true -> unique_keys (upsert r t).1 = true.
Proof.
  induction t as [|x t IH]; simpl; [done|].
  intros [Hx Ht]%andb_true_iff.
  destruct (same_key r x) eqn:Hrx.
  - destruct (sql_eqb (a_status x) (a_status r));
      exact (proj2 (andb_true_iff _ _) (conj Hx Ht)).
  - specialize (IH Ht).
    pose proof (forallb_upsert (fun y => negb (same_key y x)) r t) as Hall.
    destruct (upsert r t) as [t' n]. simpl in *.
    rewrite IH, Hall; [done|done|by rewrite Hrx|done].
Qed.

(** The upsert keeps the table's key unique: if no row had the key of an
    earlier row before, none has afterwards, after one record and after a
    whole batch. *)
Theorem upsert_keeps_unique r rows t :
  unique_keys t = true ->
  unique_keys (upsert r t).1 = true /\ unique_keys (upsert_all rows t).1 = true.
Proof.
  intros Ht. split; [by apply upsert_unique|].
  revert t Ht. induction rows as [|r' rows IH]; intros t Ht; [done|]. simpl.
  pose proof (upsert_unique r' t Ht) as H1.
  destruct (upsert r' t) as [t1 n]. specialize (IH t1 H1).
  by destruct (upsert_all rows t1).
Qed.

End Upsert.

(** ** The unique key survives every request *)

Section Keeps.
Context (P : world -> Prop).

Lemma keeps_same {A} (m : M A) : (forall w, (m w).2 = w) -> keeps P m.
Proof. intros Hm w Hw. by rewrite Hm. Qed.

Lemma keeps_bind {A B} (m : M A) (k : A -> M B) :
  keeps P m -> (forall a, keeps P (k a)) -> keeps P (bind m k).
Proof.
  intros Hm Hk w Hw. unfold bind. specialize (Hm w Hw).
  destruct (m w) as [[a|e] w1]; simpl in *; [by apply Hk | done].
Qed.

Lemma keeps_try_except {A} (m : M A) h :
  keeps P m -> (forall msg, keeps P (h msg)) -> keeps P (try_except m h).
Proof.
  intros Hm Hh w Hw. unfold try_except. specialize (Hm w Hw).
  destruct (m w) as [[a|[]] w1]; simpl in *; try done. by apply Hh.
Qed.

Lemma keeps_try_finally {A} (m : M A) c :
  keeps P m -> keeps P c -> keeps P (try_finally m c).
Proof.
  intros Hm Hc w Hw. unfold try_finally. specialize (Hm w Hw).
  destruct (m w) as [r w1]. specialize (Hc w1 Hm).
  by destruct (c w1) as [[] ?].
Qed.

End Keeps.

Section KeptKey.
Context `{Collation}.

Lemma well_keyed_statement : keeps well_keyed statement.
Proof. intros w Hw. unfold statement. by repeat case_match. Qed.

Lemma well_keyed_create_connection : keeps well_keyed create_connection.
Proof.
  intros w [Hc Hall]. unfold create_connection. destruct (reachable w); [|done].
  split; [done|]. simpl. apply Forall_app. split; [done|]. by repeat constructor.
Qed.

Lemma well_keyed_insert_attendance c record : keeps well_keyed (insert_attendance c record).
Proof.
  destruct record as [[[a b] x] y]. unfold insert_attendance.
  repeat (apply keeps_bind; [apply keeps_same; intros w; unfold param;
                             by destruct (to_mysql _)|intros ?]).
  apply keeps_bind; [by apply keeps_same|]. intros stamp.
  intros w [Hc Hall]. unfold execute_update.
  destruct (conns w !! c) as [cn|] eqn:Hcn; [|done].
  destruct (connected cn); [|done].
  pose proof (well_keyed_statement w (conj Hc Hall)) as [Hc' Hall'].
  destruct (statement w) as [[[]|e] w1]; [|done].
  pose proof (upsert_unique
                {| a_student_id := a0; a_schedule_id := a1; a_attendance_date := a2;
                   a_status := a3; a_timestamp := stamp |} (attendance (work cn))) as Hup.
  destruct (upsert _ (attendance (work cn))) as [t n]. simpl in *.
  split; [done|]. apply Forall_insert; [done|]. simpl. apply Hup.
  rewrite Forall_lookup in Hall. by apply (Hall c cn).
Qed.

Lemma well_keyed_executemany c records : keeps well_keyed (executemany c records).
Proof.
  induction records as [|r rs IH]; simpl; [by apply keeps_same|].
  apply keeps_bind; [apply well_keyed_insert_attendance|]. intros n.
  apply keeps_bind; [done|]. intros m. by apply keeps_same.
Qed.

Lemma well_keyed_commit c : keeps well_keyed (commit c).
Proof.
  intros w [Hc Hall]. unfold commit.
  destruct (conns w !! c) as [cn|] eqn:Hcn; [|done].
  destruct (connected cn); [|done].
  pose proof (well_keyed_statement w (conj Hc Hall)) as [Hc' Hall'].
  destruct (statement w) as [[[]|e] w1]; [|done].
  split; [|done]. simpl. rewrite Forall_lookup in Hall. by apply (Hall c cn).
Qed.

Lemma well_keyed_rollback c : keeps well_keyed (rollback c).
Proof.
  intros w [Hc Hall]. split; [done|]. simpl.
  rewrite Forall_lookup. intros i cn Hi.
  destruct (decide (c = i)) as [->|Hne].
  - rewrite list_lookup_alter_eq in Hi.
    destruct (conns w !! i); simplify_eq/=. done.
  - rewrite list_lookup_alter_ne in Hi by done.
    rewrite Forall_lookup in Hall. by apply (Hall i cn).
Qed.

Lemma well_keyed_release c : keeps well_keyed (release c).
Proof.
  unfold release. apply keeps_bind; [by apply keeps_same|]. intros [|];
    [|by apply keeps_same].
  intros w [Hc Hall]. split; [done|]. simpl. by apply Forall_insert.
Qed.

(** However a mark_attendance request ends (written, rolled back, turned
    away or crashed), it leaves the attendance table with a unique key if
    it found it so. *)
Theorem mark_attendance_keeps_unique_key req w :
  well_keyed w -> well_keyed (mark_attendance req w).2.
Proof.
  revert w. change (keeps well_keyed (mark_attendance req)).
  unfold mark_attendance, teacher_required.
  apply keeps_bind; [by apply keeps_same|]. intros s.
  destruct (negb (is_teacher s)).
  { destruct (String.prefix "/api/" (path req)); by apply keeps_same. }
  unfold mark_attendance_body.
  repeat (apply keeps_bind; [apply keeps_same; intros w; unfold py_get;
                             by destruct (json req)|intros ?]).
  destruct (negb _); [by apply keeps_same|].
  apply keeps_bind; [apply well_keyed_create_connection|]. intros [c|];
    [|by apply keeps_same].
  apply keeps_try_finally; [|apply well_keyed_release].
  apply keeps_try_except.
  - apply keeps_bind.
    { apply keeps_same. intros w.
      by rewrite (build_records_pure _ _ _ w w). }
    intros records.
    apply keeps_bind; [apply well_keyed_executemany|]. intros n.
    apply keeps_bind; [apply well_keyed_commit|]. intros _. by apply keeps_same.
  - intros msg. apply keeps_bind; [apply well_keyed_rollback|]. intros _.
    by apply keeps_same.
Qed.

End KeptKey.

(** ** Rejected statements *)

Section Rejected.
Context `{Collation}.

Lemma select_rejected {A} (q : database -> A) w msg fs :
  execute_select (length (conns w)) q (set_faults (opened w) (Some msg :: fs))
  = (Raise (MySQLError msg), set_faults (opened w) fs).
Proof.
  unfold execute_select. rewrite lookup_opened. simpl connected. cbv iota.
  unfold bind. by rewrite (statement_fault _ msg fs).
Qed.

Lemma try_except_answer {A} (m : M A) (g : string -> A) w msg w' :
  m w = (Raise (MySQLError msg), w') ->
  try_except m (fun err => ret (g err)) w = (Ret (g msg), w').
Proof. intros E. unfold try_except. by rewrite E. Qed.

(** When the server rejects the k-th statement of the attendance view
    (k = 1, 2, 3), the answer is 500 with "Database error: " and the
    server's message; no further statement is sent, nothing is retried, the
    data are untouched and the connection is closed. *)
Theorem view_attendance_database_error req w s dt k msg fs :
  assoc "schedule_id" (args req) = Some s -> s <> "" ->
  assoc "date" (args req) = Some dt -> dt <> "" ->
  reachable w = true ->
  faults w = (replicate k None ++ Some msg :: fs)%list -> (k < 3)%nat ->
  ((0 < k)%nat -> is_Some (head (select_batch (SStr s) (committed w)))) ->
  exists w',
    view_attendance_body req w = (Ret (failure ("Database error: " +:+ msg) 500), w')
    /\ faults w' = fs
    /\ committed w' = committed w
    /\ flags w' = (flags w ++ [false])%list.
Proof.
  intros Ha Hs Hd Hdt Hr Hfaults Hk Hfound.
  assert (Hstart : forall r w1,
    try_finally
      (try_except
         (sid <- param (PStr s) ;;
          rows <- execute_select (length (conns w)) (select_batch sid) ;;
          match head rows with
          | None => ret (failure "Schedule not found." 404)
          | Some batch =>
              all_students <- execute_select (length (conns w)) (select_students batch) ;;
              dt0 <- param (PStr dt) ;;
              recs <- execute_select (length (conns w)) (select_attendance sid dt0) ;;
              let attendance_records := attendance_dict recs in
              let full_attendance_list :=
                map (merged_item attendance_records) all_students in
              ret (jsonify [("success", PBool true);
                            ("data", PList full_attendance_list)] 200)
          end)
         (fun err => ret (failure ("Database error: " +:+ err) 500)))
      (release (length (conns w))) (set_faults (opened w) (faults w)) = (r, w1) ->
    view_attendance_body req w = (r, w1)).
  { intros r w1 <-. unfold view_attendance_body.
    rewrite (args_get_Some _ _ _ Ha), (args_get_Some _ _ _ Hd).
    rewrite (truthy_PStr s Hs), (truthy_PStr dt Hdt).
    change (negb true || negb true) with false. cbv iota.
    rewrite (bind_run _ _ _ _ _ (create_connection_run w Hr)). reflexivity. }
  exists (closed_at (length (conns w)) (set_faults (opened w) fs)).
  split; [|split; [done|split; [done|by eapply flags_closed_at]]].
  apply Hstart. rewrite Hfaults.
  eapply try_finally_run;
    [eapply (try_except_answer _ (fun err => failure ("Database error: " +:+ err) 500))
    | apply release_opened].
  rewrite param_PStr, bind_ret.
  destruct k as [|[|[|k]]]; [| | |lia].
  - change (replicate 0 None ++ Some msg :: fs)%list with (Some msg :: fs).
    by rewrite (bind_raise _ _ _ _ _ (select_rejected _ w msg fs)).
  - destruct Hfound as [batch Hb]; [lia|].
    change (replicate 1 None ++ Some msg :: fs)%list with (None :: Some msg :: fs).
    rewrite (bind_run _ _ _ _ _ (select_opened _ 0 w (None :: Some msg :: fs) eq_refl)).
    change (tail (None :: Some msg :: fs)) with (Some msg :: fs).
    rewrite Hb. cbv iota.
    by rewrite (bind_raise _ _ _ _ _ (select_rejected _ w msg fs)).
  - destruct Hfound as [batch Hb]; [lia|].
    change (replicate 2 None ++ Some msg :: fs)%list
      with (None :: None :: Some msg :: fs).
    rewrite (bind_run _ _ _ _ _
               (select_opened _ 0 w (None :: None :: Some msg :: fs) eq_refl)).
    change (tail (None :: None :: Some msg :: fs)) with (None :: Some msg :: fs).
    rewrite Hb. cbv iota.
    rewrite (bind_run _ _ _ _ _ (select_opened _ 0 w (None :: Some msg :: fs) eq_refl)).
    change (tail (None :: Some msg :: fs)) with (Some msg :: fs).
    rewrite param_PStr, bind_ret.
    by rewrite (bind_raise _ _ _ _ _ (select_rejected _ w msg fs)).
Qed.

(** When the server rejects the first or the second statement of
    class_students, the answer is 500 with "Database Error: " and the
    server's message; no further statement is sent, the data are untouched
    and the connection is closed. *)
Theorem class_students_database_error req w s k msg fs :
  assoc "schedule_id" (args req) = Some s -> s <> "" ->
  reachable w = true ->
  faults w = (replicate k None ++ Some msg :: fs)%list -> (k < 2)%nat ->
  ((0 < k)%nat -> is_Some (head (select_batch (SStr s) (committed w)))) ->
  exists w',
    get_class_students_body req w = (Ret (failure ("Database Error: " +:+ msg) 500), w')
    /\ faults w' = fs
    /\ committed w' = committed w
    /\ flags w' = (flags w ++ [false])%list.
Proof.
  intros Ha Hs Hr Hfaults Hk Hfound.
  exists (closed_at (length (conns w)) (set_faults (opened w) fs)).
  split; [|split; [done|split; [done|by eapply flags_closed_at]]].
  unfold get_class_students_body.
  rewrite (args_get_Some _ _ _ Ha), (truthy_PStr s Hs).
  change (negb true) with false. cbv iota.
  rewrite (bind_run _ _ _ _ _ (create_connection_run w Hr)). fold (opened w).
  change (opened w) with (set_faults (opened w) (faults w)) at 1. rewrite Hfaults.
  eapply try_finally_run;
    [eapply (try_except_answer _ (fun err => failure ("Database Error: " +:+ err) 500))
    | apply release_opened].
  rewrite param_PStr, bind_ret.
  destruct k as [|[|k]]; [| |lia].
  - change (replicate 0 None ++ Some msg :: fs)%list with (Some msg :: fs).
    by rewrite (bind_raise _ _ _ _ _ (select_rejected _ w msg fs)).
  - destruct Hfound as [batch Hb]; [lia|].
    change (replicate 1 None ++ Some msg :: fs)%list with (None :: Some msg :: fs).
    rewrite (bind_run _ _ _ _ _ (select_opened _ 0 w (None :: Some msg :: fs) eq_refl)).
    change (tail (None :: Some msg :: fs)) with (Some msg :: fs).
    rewrite Hb. cbv iota.
    by rewrite (bind_raise _ _ _ _ _ (select_rejected _ w msg fs)).
Qed.

(** The login has no [except] clause: when the server rejects its lookup,
    the database error leaves the handler as an exception; the session is
    not changed and the connection is closed all the same. *)
Theorem login_database_error req w d email password e p msg fs :
  json req = PDict d ->
  assoc "email" d = Some email -> assoc "password" d = Some password ->
  truthy email = true -> truthy password = true ->
  to_mysql email = Some e -> to_mysql password = Some p ->
  reachable w = true -> faults w = Some msg :: fs ->
  exists w',
    teacher_login_action req w = (Raise (MySQLError msg), w')
    /\ session w' = session w
    /\ faults w' = fs
    /\ flags w' = (flags w ++ [false])%list.
Proof.
  intros Hj He Hp Hte Htp Hme Hmp Hr Hfaults.
  exists (closed_at (length (conns w)) (set_faults (opened w) fs)).
  split; [|split; [done|split; [done|by eapply flags_closed_at]]].
  unfold teacher_login_action. rewrite Hj. unfold py_get.
  rewrite He, Hp. simpl default. rewrite !bind_ret, Hte, Htp.
  change (negb true || negb true) with false. cbv iota.
  rewrite (bind_run _ _ _ _ _ (create_connection_run w Hr)). fold (opened w).
  eapply try_finally_run; [|apply release_opened].
  rewrite (bind_run _ _ _ _ _ (param_run _ _ _ Hme)).
  rewrite (bind_run _ _ _ _ _ (param_run _ _ _ Hmp)).
  change (opened w) with (set_faults (opened w) (faults w)). rewrite Hfaults.
  by rewrite (bind_raise _ _ _ _ _ (select_rejected _ w msg fs)).
Qed.

(** The three schedule routes have no [except] clause either: a rejected
    query leaves them as an exception, with the connection closed and
    nothing changed. *)
Theorem schedule_routes_database_error e req w tid msg fs :
  e = ep_get_teacher_schedule \/ e = ep_get_today_classes
  \/ e = ep_get_all_teacher_classes ->
  is_teacher (session w) = true ->
  to_mysql (session_get (session w) "user_id") = Some tid ->
  reachable w = true -> faults w = Some msg :: fs ->
  exists w',
    view_function e req w = (Raise (MySQLError msg), w')
    /\ committed w' = committed w
    /\ session w' = session w
    /\ flags w' = (flags w ++ [false])%list.
Proof.
  intros He Ht Hid Hr Hfaults.
  exists (closed_at (length (conns w)) (set_faults (opened w) fs)).
  split; [|split; [done|split; [done|by eapply flags_closed_at]]].
  destruct He as [->|[->| ->]]; simpl;
    unfold get_teacher_schedule, get_today_classes, get_all_teacher_classes;
    rewrite teacher_required_run by done;
    unfold get_teacher_schedule_body, get_today_classes_body, get_all_teacher_classes_body;
    rewrite (bind_run get_session _ w _ _ eq_refl);
    try rewrite (bind_run get_today _ w _ _ eq_refl);
    rewrite (bind_run _ _ _ _ _ (create_connection_run w Hr)); fold (opened w);
    (eapply try_finally_run; [|apply release_opened]);
    rewrite (bind_run _ _ _ _ _ (param_run _ _ _ Hid));
    try rewrite param_PStr, bind_ret;
    change (opened w) with (set_faults (opened w) (faults w)); rewrite Hfaults;
    by rewrite (bind_raise _ _ _ _ _ (select_rejected _ w msg fs)).
Qed.

End Rejected.

(** ** The remaining routes, run on the school *)

Lemma only_mark_attendance_writes_witness :
  committed (@view_function plain ep_view_attendance attendance_request stormy).2
  = committed stormy.
Proof.
  apply (@only_mark_attendance_writes plain ep_view_attendance attendance_request stormy).
  discriminate.
Defined.

Lemma only_login_and_logout_touch_session_witness :
  session (@view_function plain ep_mark_attendance (mark_request two_marks) monday).2
  = session monday.
Proof.
  apply (@only_login_and_logout_touch_session plain ep_mark_attendance
           (mark_request two_marks) monday); discriminate.
Defined.

Lemma unreachable_database_witness :
  (@view_function plain ep_get_class_students roster_request offline).2 = offline
  /\ (forall resp,
        (@view_function plain ep_get_class_students roster_request offline).1 = Ret resp ->
        code resp <> 200 /\ has_data resp = false)
  /\ @view_function plain ep_get_teacher_schedule schedule_request offline
     = (Ret (failure "Database error" 500), offline).
Proof.
  destruct (@unreachable_database plain ep_get_class_students roster_request offline
              eq_refl eq_refl) as (Hw & Hresp & _).
  destruct (@unreachable_database plain ep_get_teacher_schedule schedule_request offline
              eq_refl eq_refl) as (_ & _ & Hsched).
  split; [exact Hw|]. split; [exact Hresp|]. apply Hsched; [reflexivity | by left].
Defined.

Lemma login_then_session_witness :
  exists w',
    @teacher_login_action plain (login_request "s3cret") anonymous
    = (Ret (jsonify [("success", PBool true);
                     ("teacher", PDict [("name", PStr "Asha"); ("id", PInt 5)])] 200), w')
    /\ forall req',
         teacher_session req' w'
         = (Ret (jsonify [("logged_in", PBool true);
                          ("teacher", PDict [("id", PInt 5); ("name", PStr "Asha")])] 200),
            w').
Proof.
  apply (@login_then_session plain (login_request "s3cret") anonymous _
           (PStr "asha@school.test") (PStr "s3cret") _ _ asha
           eq_refl eq_refl eq_refl eq_refl eq_refl eq_refl eq_refl eq_refl eq_refl eq_refl).
Defined.

Lemma logout_ends_the_session_witness :
  teacher_logout session_request monday
  = (Ret (jsonify [("success", PBool true)] 200), set_session monday ∅)
  /\ @view_function plain ep_get_class_students roster_request (set_session monday ∅)
     = (Ret (failure "Authentication required" 401), set_session monday ∅).
Proof.
  destruct (@logout_ends_the_session plain session_request monday) as (Hout & _ & Hapi).
  split; [exact Hout|]. apply Hapi; [reflexivity | reflexivity | discriminate].
Defined.

Lemma body_must_be_an_object_witness :
  @teacher_login_action plain null_login anonymous = (Raise AttributeError, anonymous)
  /\ @mark_attendance_body plain null_login anonymous = (Raise AttributeError, anonymous).
Proof.
  apply (@body_must_be_an_object plain null_login anonymous). intros d. discriminate.
Defined.

Lemma login_requires_credentials_witness :
  @teacher_login_action plain (login_request "") anonymous
  = (Ret (failure "Email and password are required." 400), anonymous).
Proof.
  eapply (@login_requires_credentials plain (login_request "") anonymous);
    [reflexivity | by right].
Defined.

Lemma mark_attendance_requires_all_fields_witness :
  @mark_attendance_body plain mark_schedule_zero monday
  = (Ret (failure "Missing required data." 400), monday).
Proof.
  eapply (@mark_attendance_requires_all_fields plain mark_schedule_zero monday);
    [reflexivity | by left].
Defined.

Lemma view_attendance_errors_witness :
  @view_attendance_body plain attendance_request_no_date monday
  = (Ret (failure "Schedule ID and date are required." 400), monday)
  /\ exists w', @view_attendance_body plain attendance_request_unknown monday
                = (Ret (failure "Schedule not found." 404), w')
                /\ committed w' = committed monday
                /\ faults w' = tail (faults monday)
                /\ flags w' = (flags monday ++ [false])%list.
Proof.
  split.
  - apply (proj1 (@view_attendance_errors plain attendance_request_no_date monday)).
    right. right. by left.
  - apply (proj1 (proj2 (@view_attendance_errors plain attendance_request_unknown monday))
             "99" "2024-03-04"); try run.
    intros sch Hin. apply list_elem_of_singleton in Hin. by subst sch.
Defined.

Lemma view_attendance_follows_roster_witness :
  exists roster records w',
    @view_attendance plain attendance_request monday
    = (Ret (jsonify [("success", PBool true); ("data", PList records)] 200), w')
    /\ roster ≡ₚ [bob; alice]
    /\ Sorted (fun a b => plain_leb (st_name a) (st_name b) = true) roster
    /\ map (field "student_id") records
       = map (fun st => Some (to_python (st_student_id st))) roster
    /\ map (field "student_name") records
       = map (fun st => Some (to_python (st_name st))) roster
    /\ map (field "student_email") records
       = map (fun st => Some (to_python (st_email st))) roster.
Proof.
  apply (@view_attendance_follows_roster plain attendance_request monday
           "12" "2024-03-04" schedule12); try run.
  apply plain_leb_total.
Defined.



Lemma all_classes_rows_witness :
  exists rows w',
    @get_all_teacher_classes plain classes_request monday
    = (Ret (jsonify [("success", PBool true);
                     ("data", PList (map class_item rows))] 200), w')
    /\ NoDup rows
    /\ (SInt 12, SStr "CS-A", SStr "Maths", SStr "B1") ∈ rows.
Proof.
  destruct (@all_classes_rows plain classes_request monday (SInt 5))
    as (rows & w' & Hrun & _ & Hnodup & _ & Hrows); try run.
  { apply plain_leb_total. }
  exists rows, w'. split; [exact Hrun|]. split; [exact Hnodup|].
  apply Hrows. exists schedule12, maths_a, maths.
  split; [by apply list_elem_of_singleton|]. by split.
Defined.

Lemma mark_attendance_saves_witness :
  exists w',
    @mark_attendance plain (mark_request two_marks) monday
    = (Ret (jsonify [("success", PBool true);
                     ("message", PStr "Attendance for 2 students saved.")] 200), w')
    /\ committed w'
       = set_attendance school [alice_present; alice_present_next_day; bob_late]
    /\ flags w' = [false]
    /\ session w' = session monday.
Proof.
  eapply (@mark_attendance_saves plain (mark_request two_marks) monday _ _ _ _ _
            [alice_present_next_day; bob_late]
            eq_refl eq_refl eq_refl eq_refl eq_refl eq_refl eq_refl eq_refl);
    [by repeat constructor | reflexivity].
Defined.

Lemma mark_attendance_item_error_witness :
  exists w',
    @mark_attendance_body plain (mark_request (PList [alice_mark; mark_without_status]))
      monday
    = (Raise (KeyError "status"), w')
    /\ committed w' = committed monday
    /\ faults w' = faults monday
    /\ flags w' = (flags monday ++ [false])%list.
Proof.
  eapply (@mark_attendance_item_error plain
            (mark_request (PList [alice_mark; mark_without_status])) monday _ _ _ _ _
            [alice_mark] mark_without_status []
            _ eq_refl eq_refl eq_refl eq_refl eq_refl eq_refl eq_refl eq_refl);
    [by repeat constructor | reflexivity].
Defined.

Lemma upsert_twice_witness :
  (@upsert plain bob_late (@upsert plain bob_late [alice_present]).1).1
  = (@upsert plain bob_late [alice_present]).1.
Proof. apply (@upsert_twice plain bob_late [alice_present]). reflexivity. Defined.

Lemma upsert_then_found_witness :
  exists pre x post,
    (@upsert plain bob_late [alice_present]).1 = (pre ++ x :: post)%list
    /\ Forall (fun y => @same_key plain bob_late y = false) pre
    /\ @same_key plain bob_late x = true
    /\ (a_status x = a_status bob_late
        \/ plain_eqb (a_status x) (a_status bob_late) = true).
Proof. apply (@upsert_then_found plain bob_late [alice_present]). reflexivity. Defined.

Lemma upsert_keeps_unique_witness :
  @unique_keys plain (@upsert plain bob_late [alice_present]).1 = true
  /\ @unique_keys plain
       (@upsert_all plain [alice_present_next_day; bob_late] [alice_present]).1 = true.
Proof.
  apply (@upsert_keeps_unique plain bob_late [alice_present_next_day; bob_late]
           [alice_present]).
  reflexivity.
Defined.

Lemma mark_attendance_keeps_unique_key_witness :
  @well_keyed plain (@mark_attendance plain (mark_request two_marks) stormy).2.
Proof.
  apply (@mark_attendance_keeps_unique_key plain (mark_request two_marks) stormy).
  split; [reflexivity | constructor].
Defined.

Lemma view_attendance_database_error_witness :
  exists w',
    @view_attendance_body plain attendance_request stormy
    = (Ret (failure "Database error: Lock wait timeout exceeded" 500), w')
    /\ faults w' = []
    /\ committed w' = committed stormy
    /\ flags w' = (flags stormy ++ [false])%list.
Proof.
  apply (@view_attendance_database_error plain attendance_request stormy
           "12" "2024-03-04" 1%nat "Lock wait timeout exceeded" []); try run.
  lia.
Defined.

Lemma class_students_database_error_witness :
  exists w',
    @get_class_students_body plain roster_request crashed
    = (Ret (failure "Database Error: Table is marked as crashed" 500), w')
    /\ faults w' = []
    /\ committed w' = committed crashed
    /\ flags w' = (flags crashed ++ [false])%list.
Proof.
  apply (@class_students_database_error plain roster_request crashed
           "12" 0%nat "Table is marked as crashed" []); try run.
  all: lia.
Defined.

Lemma login_database_error_witness :
  exists w',
    @teacher_login_action plain (login_request "s3cret") gone_away
    = (Raise (MySQLError "Server has gone away"), w')
    /\ session w' = session gone_away
    /\ faults w' = []
    /\ flags w' = (flags gone_away ++ [false])%list.
Proof.
  apply (@login_database_error plain (login_request "s3cret") gone_away _
           (PStr "asha@school.test") (PStr "s3cret") _ _ "Server has gone away" []
           eq_refl eq_refl eq_refl eq_refl eq_refl eq_refl eq_refl eq_refl eq_refl).
Defined.

Lemma schedule_routes_database_error_witness :
  exists w',
    @view_function plain ep_get_today_classes today_request crashed
    = (Raise (MySQLError "Table is marked as crashed"), w')
    /\ committed w' = committed crashed
    /\ session w' = session crashed
    /\ flags w' = (flags crashed ++ [false])%list.
Proof.
  apply (@schedule_routes_database_error plain ep_get_today_classes today_request crashed
           (SInt 5) "Table is marked as crashed" []); try run.
  right. by left.
Defined.
